(** * Bulk-Renamer: the renaming engine, the preview pass and the rename loop

    A shallow embedding of [bulk-renamer.py].

    - Python [str] values are [string]s; integers are [Z] (unbounded, as in
      Python); positions in a list are [nat].
    - Case mapping ([str.lower], [str.upper], [str.title] and the
      case-insensitive search) is the one of ASCII text: the letters are
      [A-Z] and [a-z], every other character is caseless.
    - [pathlib.Path] is the POSIX flavour, with [stem] and [suffix] as
      CPython 3.4 to 3.13 define them.
    - An exception is a value: a computation that can raise returns a
      [result]. *)

From Stdlib Require Import ZArith List Bool Ascii String Lia.
From Stdlib Require Import DecimalString DecimalPos DecimalZ.
Import ListNotations.

Open Scope string_scope.
Open Scope Z_scope.

(** ** Exceptions *)

Inductive exn : Type :=
| ReError        (* re.error *)
| IndexError     (* IndexError *)
| OtherError.    (* anything else the regex library raises *)

Inductive result (A : Type) : Type :=
| Returns (a : A)
| Raises (e : exn).

Arguments Returns {A} a.
Arguments Raises {A} e.

Definition bind {A B : Type} (r : result A) (k : A -> result B) : result B :=
  match r with
  | Returns a => k a
  | Raises e => Raises e
  end.

Notation "x <- r ;; k" := (bind r (fun x => k))
  (at level 61, r at next level, right associativity).

(** [try: r except re.error: fallback] *)
Definition except_re_error {A : Type} (r : result A) (fallback : A) : result A :=
  match r with
  | Raises ReError => Returns fallback
  | other => other
  end.

(** ** Python's [str] *)

Module Py.

Definition len (s : string) : Z := Z.of_nat (String.length s).

Fixpoint take (n : nat) (s : string) : string :=
  match n, s with
  | S k, String c s' => String c (take k s')
  | _, _ => ""
  end.

Fixpoint drop (n : nat) (s : string) : string :=
  match n, s with
  | S k, String _ s' => drop k s'
  | _, _ => s
  end.

(** A slice bound [i] on a sequence of length [n]: a negative bound counts
    from the end, and the result is clamped to [0..n]. *)
Definition slice_index (n : nat) (i : Z) : nat :=
  if i <? 0 then Z.to_nat (Z.max 0 (Z.of_nat n + i))
  else Nat.min (Z.to_nat i) n.

(** [s[:i]] *)
Definition slice_to (s : string) (i : Z) : string :=
  take (slice_index (String.length s) i) s.

(** [s[i:]] *)
Definition slice_from (s : string) (i : Z) : string :=
  drop (slice_index (String.length s) i) s.

(** [s[::-1]] *)
Fixpoint reverse (s : string) : string :=
  match s with
  | "" => ""
  | String c s' => reverse s' ++ String c ""
  end.

(** [c in s] for a one-character [c] *)
Fixpoint mem (c : ascii) (s : string) : bool :=
  match s with
  | "" => false
  | String a s' => Ascii.eqb a c || mem c s'
  end.

(** [s.startswith(p)] *)
Definition startswith (s p : string) : bool := String.prefix p s.

(** [s.rfind(c)] for a one-character [c]: the highest index, or [-1]. *)
Fixpoint rfind (c : ascii) (s : string) : Z :=
  match s with
  | "" => -1
  | String a s' =>
      let r := rfind c s' in
      if 0 <=? r then r + 1
      else if Ascii.eqb a c then 0 else -1
  end.

(** [s.split(c)] for a one-character separator. *)
Fixpoint split (c : ascii) (s : string) : list string :=
  match s with
  | "" => [""]
  | String a s' =>
      if Ascii.eqb a c then "" :: split c s'
      else match split c s' with
           | w :: ws => String a w :: ws
           | [] => [String a ""]
           end
  end.

(** [c * n] *)
Fixpoint repeat_char (c : ascii) (n : nat) : string :=
  match n with
  | O => ""
  | S k => String c (repeat_char c k)
  end.

(** *** Case *)

Definition is_upper (c : ascii) : bool :=
  let n := nat_of_ascii c in (65 <=? n)%nat && (n <=? 90)%nat.

Definition is_lower (c : ascii) : bool :=
  let n := nat_of_ascii c in (97 <=? n)%nat && (n <=? 122)%nat.

Definition is_cased (c : ascii) : bool := is_upper c || is_lower c.

Definition lower_char (c : ascii) : ascii :=
  if is_upper c then ascii_of_nat (nat_of_ascii c + 32) else c.

Definition upper_char (c : ascii) : ascii :=
  if is_lower c then ascii_of_nat (nat_of_ascii c - 32) else c.

Fixpoint map_chars (f : ascii -> ascii) (s : string) : string :=
  match s with
  | "" => ""
  | String c s' => String (f c) (map_chars f s')
  end.

(** [s.lower()] and [s.upper()] *)
Definition lower (s : string) : string := map_chars lower_char s.
Definition upper (s : string) : string := map_chars upper_char s.

(** [s.title()]: a character that follows a cased character is lowercased,
    any other character is titlecased. *)
Fixpoint title_from (previous_is_cased : bool) (s : string) : string :=
  match s with
  | "" => ""
  | String c s' =>
      String (if previous_is_cased then lower_char c else upper_char c)
             (title_from (is_cased c) s')
  end.

Definition title (s : string) : string := title_from false s.

(** *** Search and replace *)

(** One left-to-right pass over [s] that replaces every non-overlapping
    occurrence, of length [w], recognised by [here]; [skip] counts the
    characters of the current occurrence still to be passed over. *)
Fixpoint scan (here : string -> bool) (w : nat) (emit : string -> string)
         (skip : nat) (s : string) : string :=
  match s with
  | "" => ""
  | String c s' =>
      match skip with
      | S k => scan here w emit k s'
      | O =>
          if here s then emit (take w s) ++ scan here w emit (w - 1) s'
          else String c (scan here w emit 0 s')
      end
  end.

Fixpoint interleave (sep : string) (s : string) : string :=
  match s with
  | "" => ""
  | String c s' => String c (sep ++ interleave sep s')
  end.

(** [s.replace(old, new)] *)
Definition replace (s old new : string) : string :=
  match old with
  | "" => new ++ interleave new s
  | _ => scan (String.prefix old) (String.length old) (fun _ => new) 0 s
  end.

(** [s.translate(str.maketrans("", "", chars))]: delete the characters
    of [chars]. *)
Fixpoint delete_chars (chars : string) (s : string) : string :=
  match s with
  | "" => ""
  | String c s' =>
      if mem c chars then delete_chars chars s'
      else String c (delete_chars chars s')
  end.

(** *** Numbers *)

(** [str(n)] *)
Definition str_of_int (n : Z) : string := NilZero.string_of_int (Z.to_int n).

(** [s.zfill(width)] *)
Definition zfill (s : string) (width : Z) : string :=
  if width <=? len s then s
  else
    let fill := repeat_char "0" (Z.to_nat (width - len s)) in
    match s with
    | String c s' =>
        if Ascii.eqb c "+" || Ascii.eqb c "-" then String c (fill ++ s')
        else fill ++ s
    | "" => fill
    end.

End Py.

(** ** [pathlib.PurePosixPath] *)

Module Pathlib.

(** [Path(s).name]: the last component of [s] that is neither empty nor
    ["."], or [""] when there is none. *)
Definition is_component (x : string) : bool :=
  negb (String.eqb x "") && negb (String.eqb x ".").

Definition name (s : string) : string :=
  last (filter is_component (Py.split "/" s)) "".

(** The test [0 < i < len(name) - 1] on [i = name.rfind('.')]. *)
Definition has_suffix (nm : string) : bool :=
  let i := Py.rfind "." nm in
  (0 <? i) && (i <? Py.len nm - 1).

(** [Path(s).suffix] *)
Definition suffix (s : string) : string :=
  let nm := name s in
  if has_suffix nm then Py.slice_from nm (Py.rfind "." nm) else "".

(** [Path(s).stem] *)
Definition stem (s : string) : string :=
  let nm := name s in
  if has_suffix nm then Py.slice_to nm (Py.rfind "." nm) else nm.

End Pathlib.

(** ** The [re] module

    The regex compiler and matcher are a library of the platform; the
    engine stage receives [re.sub] as a parameter.  What the replace stage
    needs of [re] is modelled here: [re.escape], the parser of replacement
    templates, and the search for a quoted literal under [re.IGNORECASE]. *)

Module Re.

Definition special_chars : string :=
  "()[]{}?*+-|^$\.&~# " ++
  String (ascii_of_nat 9) (String (ascii_of_nat 10) (String (ascii_of_nat 13)
    (String (ascii_of_nat 11) (String (ascii_of_nat 12) "")))).

(** [re.escape(s)] *)
Fixpoint escape (s : string) : string :=
  match s with
  | "" => ""
  | String c s' =>
      if Py.mem c special_chars then String "\" (String c (escape s'))
      else String c (escape s')
  end.

(** *** Replacement templates *)

(** The tokenizer reads one character, or a backslash and the character
    after it; a backslash that ends the template is an error, raised when
    the token before it is read. *)
Inductive token : Type :=
| Ch (c : ascii)
| Esc (c : ascii)
| BadEnd.

Fixpoint tokenize (s : string) : list token :=
  match s with
  | "" => []
  | String c r =>
      if Ascii.eqb c "\" then
        match r with
        | "" => [BadEnd]
        | String d r' => Esc d :: tokenize r'
        end
      else Ch c :: tokenize r
  end.

Definition next_ok (rest : list token) : bool :=
  match rest with
  | BadEnd :: _ => false
  | _ => true
  end.

Definition token_text (t : token) : string :=
  match t with
  | Ch c => String c ""
  | Esc c => String "\" (String c "")
  | BadEnd => ""
  end.

Inductive item : Type :=
| Lit (s : string)
| Group (index : nat).

Definition is_digit (c : ascii) : bool :=
  let n := nat_of_ascii c in (48 <=? n)%nat && (n <=? 57)%nat.

Definition is_octdigit (c : ascii) : bool :=
  let n := nat_of_ascii c in (48 <=? n)%nat && (n <=? 55)%nat.

Definition digit_val (c : ascii) : nat := (nat_of_ascii c - 48)%nat.

Definition is_ident_start (c : ascii) : bool :=
  Py.is_cased c || Ascii.eqb c "_".

Definition is_ident_char (c : ascii) : bool :=
  is_ident_start c || is_digit c.

Fixpoint all_chars (p : ascii -> bool) (s : string) : bool :=
  match s with
  | "" => true
  | String c s' => p c && all_chars p s'
  end.

(** [name.isidentifier()] *)
Definition isidentifier (s : string) : bool :=
  match s with
  | "" => false
  | String c s' => is_ident_start c && all_chars is_ident_char s'
  end.

Fixpoint decimal_val (acc : nat) (s : string) : nat :=
  match s with
  | "" => acc
  | String c s' => decimal_val (10 * acc + digit_val c) s'
  end.

(** The table [ESCAPES] of the template parser. *)
Definition escape_char (c : ascii) : option ascii :=
  if Ascii.eqb c "a" then Some (ascii_of_nat 7)
  else if Ascii.eqb c "b" then Some (ascii_of_nat 8)
  else if Ascii.eqb c "f" then Some (ascii_of_nat 12)
  else if Ascii.eqb c "n" then Some (ascii_of_nat 10)
  else if Ascii.eqb c "r" then Some (ascii_of_nat 13)
  else if Ascii.eqb c "t" then Some (ascii_of_nat 9)
  else if Ascii.eqb c "v" then Some (ascii_of_nat 11)
  else if Ascii.eqb c "\" then Some "\"%char
  else None.

Inductive pstate : Type :=
| Normal
| AfterG                     (* after \g, before < *)
| InName (acc : string)      (* inside \g<...> *)
| OctA                       (* after \0 *)
| OctB (v : nat)             (* after \0 and one octal digit *)
| Dig1 (c : ascii)           (* after \c, c in 1..9 *)
| Dig2 (c d : ascii).        (* after \cd *)

Section Template.

(** The compiled pattern: its number of groups and its named groups. *)
Variable groups : nat.
Variable groupindex : string -> option nat.

Definition addgroup (index : nat) : result (list item) :=
  if (groups <? index)%nat then Raises ReError else Returns [Group index].

Definition named_group (name : string) : result (list item) :=
  if all_chars is_digit name then addgroup (decimal_val 0 name)
  else if isidentifier name then
    match groupindex name with
    | Some index => addgroup index
    | None => Raises IndexError
    end
  else Raises ReError.

(** A token read by the main loop. *)
Definition normal_tok (t : token) : result (list item * pstate) :=
  match t with
  | Ch c => Returns ([Lit (String c "")], Normal)
  | BadEnd => Raises ReError
  | Esc c =>
      if Ascii.eqb c "g" then Returns ([], AfterG)
      else if Ascii.eqb c "0" then Returns ([], OctA)
      else if is_digit c then Returns ([], Dig1 c)
      else match escape_char c with
           | Some e => Returns ([Lit (String e "")], Normal)
           | None =>
               if Py.is_cased c then Raises ReError
               else Returns ([Lit (token_text t)], Normal)
           end
  end.

Definition octal_digit (t : token) : option nat :=
  match t with
  | Ch d => if is_octdigit d then Some (digit_val d) else None
  | _ => None
  end.

Definition decimal_digit (t : token) : option ascii :=
  match t with
  | Ch d => if is_digit d then Some d else None
  | _ => None
  end.

Definition chr (n : nat) : item := Lit (String (ascii_of_nat n) "").

(** What is pending when the template ends. *)
Definition finish (st : pstate) : result (list item) :=
  match st with
  | Normal => Returns []
  | AfterG => Raises ReError
  | InName _ => Raises ReError
  | OctA => Returns [chr 0]
  | OctB v => Returns [chr v]
  | Dig1 c => addgroup (digit_val c)
  | Dig2 c d => addgroup (10 * digit_val c + digit_val d)
  end.

Fixpoint parse (st : pstate) (toks : list token) : result (list item) :=
  match toks with
  | [] => finish st
  | t :: rest =>
      let read (k : result (list item)) : result (list item) :=
        if next_ok rest then k else Raises ReError in
      let main (pending : result (list item)) : result (list item) :=
        done <- pending ;;
        read (r <- normal_tok t ;;
              more <- parse (snd r) rest ;;
              Returns (done ++ fst r ++ more)%list) in
      match st with
      | Normal => main (Returns [])
      | AfterG =>
          match t with
          | Ch c => if Ascii.eqb c "<" then read (parse (InName "") rest)
                    else Raises ReError
          | _ => Raises ReError
          end
      | InName acc =>
          read (match t with
                | Ch c =>
                    if Ascii.eqb c ">" then
                      match acc with
                      | "" => Raises ReError
                      | _ => g <- named_group acc ;;
                             more <- parse Normal rest ;;
                             Returns (g ++ more)%list
                      end
                    else parse (InName (acc ++ token_text t)) rest
                | _ => parse (InName (acc ++ token_text t)) rest
                end)
      | OctA =>
          match octal_digit t with
          | Some v => read (parse (OctB v) rest)
          | None => main (finish st)
          end
      | OctB v =>
          match octal_digit t with
          | Some w => read (more <- parse Normal rest ;;
                            Returns (chr (Nat.land (8 * v + w) 255) :: more))
          | None => main (finish st)
          end
      | Dig1 c =>
          match decimal_digit t with
          | Some d => read (parse (Dig2 c d) rest)
          | None => main (finish st)
          end
      | Dig2 c d =>
          match octal_digit t with
          | Some w =>
              if is_octdigit c && is_octdigit d then
                read (let v := (64 * digit_val c + 8 * digit_val d + w)%nat in
                      if (255 <? v)%nat then Raises ReError
                      else more <- parse Normal rest ;;
                           Returns (chr v :: more))
              else main (finish st)
          | None => main (finish st)
          end
      end
  end.

(** [parse_template(repl, pattern)] *)
Definition parse_template (repl : string) : result (list item) :=
  let toks := tokenize repl in
  if next_ok toks then parse Normal toks else Raises ReError.

End Template.

(** The text a parsed template stands for at one match. *)
Fixpoint expand (group : nat -> string) (t : list item) : string :=
  match t with
  | [] => ""
  | Lit s :: t' => s ++ expand group t'
  | Group i :: t' => group i ++ expand group t'
  end.

(** *** A quoted literal under [re.IGNORECASE] *)

Fixpoint prefix_ignorecase (p s : string) : bool :=
  match p, s with
  | "", _ => true
  | String a p', String b s' =>
      Ascii.eqb (Py.lower_char a) (Py.lower_char b) && prefix_ignorecase p' s'
  | _, _ => false
  end.

(** [re.compile(re.escape(old), re.IGNORECASE).sub(repl, s)] for a
    non-empty [old]: the pattern has no group, so a template can only
    refer to group 0, the whole match. *)
Definition sub_literal_ignorecase (old repl s : string) : result string :=
  t <- parse_template 0 (fun _ => None) repl ;;
  Returns (Py.scan (prefix_ignorecase old) (String.length old)
                   (fun m => expand (fun _ => m) t) 0 s).

End Re.

(** ** The configuration *)

Record RenameConfig : Type := {
  (* 1. Regex *)
  regex_match : string;
  regex_replace : string;
  regex_simple : bool;
  (* 2. Name *)
  name_mode : string;       (* Keep, Remove, Fixed, Reverse *)
  name_fixed : string;
  (* 3. Replace *)
  replace_str : string;
  replace_with : string;
  replace_case : bool;
  (* 4. Case *)
  case_mode : string;       (* Same, Lower, Upper, Title, Sentence *)
  (* 5. Remove *)
  remove_first : Z;
  remove_last : Z;
  remove_from : Z;
  remove_to : Z;
  remove_chars : string;
  (* 7. Add *)
  add_prefix : string;
  add_suffix : string;
  add_insert : string;
  add_at_pos : Z;
  (* 10. Numbering *)
  num_mode : string;        (* None, Prefix, Suffix, Insert *)
  num_start : Z;
  num_incr : Z;
  num_pad : Z;
  num_sep : string;
  num_at : Z;
  (* 11. Extension *)
  ext_mode : string;        (* Same, Lower, Upper, Remove, Fixed *)
  ext_fixed : string
}.

(** [RenameConfig()] *)
Definition RenameConfig_init : RenameConfig := {|
  regex_match := ""; regex_replace := ""; regex_simple := false;
  name_mode := "Keep"; name_fixed := "";
  replace_str := ""; replace_with := ""; replace_case := false;
  case_mode := "Same";
  remove_first := 0; remove_last := 0; remove_from := 0; remove_to := 0;
  remove_chars := "";
  add_prefix := ""; add_suffix := ""; add_insert := ""; add_at_pos := 0;
  num_mode := "None"; num_start := 1; num_incr := 1; num_pad := 0;
  num_sep := ""; num_at := 0;
  ext_mode := "Same"; ext_fixed := ""
|}.

(** The truth value of a [str]. *)
Definition truthy (s : string) : bool := negb (String.eqb s "").

(** ** [RenamingEngine] *)

Module RenamingEngine.

Section Engine.

(** [re.sub(pattern, repl, string)] of the platform. *)
Variable re_sub : string -> string -> string -> result string.

(** 1. RegEx *)
Definition stage_regex (config : RenameConfig) (stem : string) : result string :=
  if truthy (regex_match config) then
    let pattern := regex_match config in
    let pattern :=
      if regex_simple config then Py.replace (Re.escape pattern) "\*" ".*"
      else pattern in
    except_re_error (re_sub pattern (regex_replace config) stem) stem
  else Returns stem.

(** 2. Name *)
Definition stage_name (config : RenameConfig) (stem : string) : string :=
  if String.eqb (name_mode config) "Remove" then ""
  else if String.eqb (name_mode config) "Fixed" then name_fixed config
  else if String.eqb (name_mode config) "Reverse" then Py.reverse stem
  else stem.

(** 3. Replace *)
Definition stage_replace (config : RenameConfig) (stem : string) : result string :=
  if truthy (replace_str config) then
    if replace_case config then
      Returns (Py.replace stem (replace_str config) (replace_with config))
    else
      Re.sub_literal_ignorecase (replace_str config) (replace_with config) stem
  else Returns stem.

(** 5. Remove: first n, last n, the range, the characters *)
Definition remove_first_n (config : RenameConfig) (stem : string) : string :=
  if 0 <? remove_first config then Py.slice_from stem (remove_first config)
  else stem.

Definition remove_last_n (config : RenameConfig) (stem : string) : string :=
  if (0 <? remove_last config) && (remove_last config <? Py.len stem)
  then Py.slice_to stem (- remove_last config)
  else stem.

Definition remove_range (config : RenameConfig) (stem : string) : string :=
  if (0 <? remove_from config) || (0 <? remove_to config) then
    let start := Z.max 0 (remove_from config - 1) in
    let end_ := if 0 <? remove_to config then remove_to config else Py.len stem in
    if start <? Py.len stem then Py.slice_to stem start ++ Py.slice_from stem end_
    else stem
  else stem.

Definition remove_characters (config : RenameConfig) (stem : string) : string :=
  if truthy (remove_chars config) then Py.delete_chars (remove_chars config) stem
  else stem.

Definition stage_remove (config : RenameConfig) (stem : string) : string :=
  remove_characters config
    (remove_range config (remove_last_n config (remove_first_n config stem))).

(** 7. Add *)
Definition stage_add (config : RenameConfig) (stem : string) : string :=
  let stem := if truthy (add_prefix config) then add_prefix config ++ stem else stem in
  let stem := if truthy (add_suffix config) then stem ++ add_suffix config else stem in
  if truthy (add_insert config) then
    let pos := add_at_pos config in
    if Py.len stem <=? pos then stem ++ add_insert config
    else Py.slice_to stem pos ++ add_insert config ++ Py.slice_from stem pos
  else stem.

(** 10. Numbering *)
Definition num_val (config : RenameConfig) (index : Z) : Z :=
  num_start config + index * num_incr config.

Definition num_str (config : RenameConfig) (index : Z) : string :=
  Py.zfill (Py.str_of_int (num_val config index)) (num_pad config).

Definition full_num_str (config : RenameConfig) (index : Z) : string :=
  if String.eqb (num_mode config) "Suffix"
  then num_sep config ++ num_str config index
  else num_str config index ++ num_sep config.

Definition stage_numbering (config : RenameConfig) (index : Z) (stem : string) : string :=
  if negb (String.eqb (num_mode config) "None") then
    if String.eqb (num_mode config) "Prefix" then full_num_str config index ++ stem
    else if String.eqb (num_mode config) "Suffix" then stem ++ full_num_str config index
    else if String.eqb (num_mode config) "Insert" then
      let pos := num_at config in
      Py.slice_to stem pos ++ full_num_str config index ++ Py.slice_from stem pos
    else stem
  else stem.

(** 4. Case *)
Definition stage_case (config : RenameConfig) (stem : string) : string :=
  if String.eqb (case_mode config) "Lower" then Py.lower stem
  else if String.eqb (case_mode config) "Upper" then Py.upper stem
  else if String.eqb (case_mode config) "Title" then Py.title stem
  else stem.

(** 11. Extension *)
Definition stage_extension (config : RenameConfig) (ext : string) : string :=
  if String.eqb (ext_mode config) "Lower" then Py.lower ext
  else if String.eqb (ext_mode config) "Upper" then Py.upper ext
  else if String.eqb (ext_mode config) "Remove" then ""
  else if String.eqb (ext_mode config) "Fixed" then
    if negb (Py.startswith (ext_fixed config) ".") then "." ++ ext_fixed config
    else ext_fixed config
  else ext.

(** [RenamingEngine.process(original_name, config, index)] *)
Definition process (original_name : string) (config : RenameConfig) (index : Z)
  : result string :=
  let stem := Pathlib.stem original_name in
  let ext := Pathlib.suffix original_name in
  stem <- stage_regex config stem ;;
  let stem := stage_name config stem in
  stem <- stage_replace config stem ;;
  let stem := stage_remove config stem in
  let stem := stage_add config stem in
  let stem := stage_numbering config index stem in
  let stem := stage_case config stem in
  let ext := stage_extension config ext in
  Returns (stem ++ ext).

End Engine.

End RenamingEngine.

(** ** The data model *)

Record FileItem : Type := {
  path : string;            (* the text of the entry's path *)
  original_name : string;
  new_name : string;
  size : Z;
  modified : Z;             (* the time stamp, in seconds; only displayed *)
  status : string
}.

Definition set_new_name (item : FileItem) (n : string) : FileItem := {|
  path := path item; original_name := original_name item; new_name := n;
  size := size item; modified := modified item; status := status item
|}.

(** The item [load_directory] appends for one entry: the new name is the
    entry's name, the status is the field's default. *)
Definition loaded (dir name : string) (sz mtime : Z) : FileItem := {|
  path := dir ++ "/" ++ name; original_name := name; new_name := name;
  size := sz; modified := mtime; status := "OK"
|}.

Module FileTableModel.

Inductive color : Type := red | green.

(** [data(index, Qt.ItemDataRole.ForegroundRole)] for a valid [index] at
    [row] and [col]; [None] is Python's [None], no brush. *)
Definition data_foreground (files : list FileItem) (row : nat) (col : Z)
  : result (option color) :=
  match nth_error files row with
  | None => Raises IndexError
  | Some item =>
      if col =? 1 then
        if negb (String.eqb (new_name item) (original_name item)) then
          let all_new_names := map new_name files in
          if (1 <? count_occ string_dec all_new_names (new_name item))%nat
          then Returns (Some red)
          else Returns (Some green)
        else Returns None
      else Returns None
  end.

Section Preview.

Variable re_sub : string -> string -> string -> result string.

(** The loop of [update_previews] from position [i] on.  The items are
    updated in place: when [process] raises, the items before the failing
    one keep their new names, and the exception leaves the loop. *)
Fixpoint update_from (i : Z) (config : RenameConfig) (files : list FileItem)
  : list FileItem * option exn :=
  match files with
  | [] => ([], None)
  | item :: rest =>
      match RenamingEngine.process re_sub (original_name item) config (i + 1) with
      | Returns n =>
          let (rest', e) := update_from (i + 1) config rest in
          (set_new_name item n :: rest', e)
      | Raises e => (item :: rest, Some e)
      end
  end.

(** [update_previews(config)]: the files afterwards, and the exception
    raised, if any. *)
Definition update_previews (config : RenameConfig) (files : list FileItem)
  : list FileItem * option exn :=
  update_from 0 config files.

End Preview.

End FileTableModel.

(** ** [MainWindow.execute_rename] *)

Module MainWindow.

Section Execute.

(** The file system, and [os.rename(old, new)] on it: the file system
    afterwards, and [str(e)] when an exception [e] was raised. *)
Variable World : Type.
Variable os_rename : World -> string -> string -> World * option string.

(** [p.parent] and [p / name] of [pathlib]. *)
Variable parent : string -> string.
Variable joinpath : string -> string -> string.

(** The loop over [self.table_model.files]. *)
Fixpoint rename_loop (files : list FileItem) (w : World)
         (success_count : Z) (errors : list string)
  : World * Z * list string :=
  match files with
  | [] => (w, success_count, errors)
  | item :: rest =>
      if String.eqb (original_name item) (new_name item) then
        rename_loop rest w success_count errors
      else
        let old_path := path item in
        let new_path := joinpath (parent old_path) (new_name item) in
        match os_rename w old_path new_path with
        | (w', None) => rename_loop rest w' (success_count + 1) errors
        | (w', Some e) =>
            rename_loop rest w' success_count
              (errors ++ [(original_name item ++ ": " ++ e)%string])%list
        end
  end.

(** The renames of one run as a list: each item whose name changes, in
    the order of the table, with the outcome of its rename. *)
Fixpoint attempts (files : list FileItem) (w : World)
  : list (FileItem * option string) :=
  match files with
  | [] => []
  | item :: rest =>
      if String.eqb (original_name item) (new_name item) then attempts rest w
      else
        let r := os_rename w (path item)
                   (joinpath (parent (path item)) (new_name item)) in
        (item, snd r) :: attempts rest (fst r)
  end.



Definition newline : string := String (ascii_of_nat 10) "".

(** The text of the result box. *)
Definition result_message (success_count : Z) (errors : list string) : string :=
  let msg := "Renamed " ++ Py.str_of_int success_count ++ " files." in
  match errors with
  | [] => msg
  | _ =>
      msg ++ newline ++ newline ++ "Errors ("
          ++ Py.str_of_int (Z.of_nat (List.length errors)) ++ "):" ++ newline
          ++ String.concat newline (firstn 5 errors)
  end.

(** [execute_rename()], given the answer to the confirmation box: nothing
    happens on an empty table or on the answer No. *)
Definition execute_rename (files : list FileItem) (reply_yes : bool) (w : World)
  : World * option (Z * list string * string) :=
  match files with
  | [] => (w, None)
  | _ =>
      if reply_yes then
        let '(w', success_count, errors) := rename_loop files w 0 [] in
        (w', Some (success_count, errors, result_message success_count errors))
      else (w, None)
  end.

End Execute.

End MainWindow.

(** An engine for runs whose configuration leaves the regex stage off. *)
Definition re_unused : string -> string -> string -> result string :=
  fun _ _ _ => Raises OtherError.

(** ** The specification's wording

    Definitions that follow the words of the specification, to be compared
    with the code's. *)

(** The identity configuration: every stage at its neutral setting. *)
Definition identity_config (c : RenameConfig) : Prop :=
  regex_match c = "" /\ name_mode c = "Keep" /\ replace_str c = "" /\
  case_mode c = "Same" /\
  remove_first c = 0 /\ remove_last c = 0 /\ remove_from c = 0 /\
  remove_to c = 0 /\ remove_chars c = "" /\
  add_prefix c = "" /\ add_suffix c = "" /\ add_insert c = "" /\
  num_mode c = "None" /\ ext_mode c = "Same".

(** The extension: the text from the last dot on, empty when there is no
    dot or when the only dot opens the name. *)
Definition spec_extension (nm : string) : string :=
  let i := Py.rfind "." nm in
  if i <=? 0 then "" else Py.slice_from nm i.

(** The integer a decimal text denotes, as [int(s)] reads it. *)
Definition int_of_str (s : string) : option Z :=
  option_map Z.of_int (NilZero.int_of_string s).






(** ** Configurations and batches of the scenarios *)

(** Numbering as a suffix: start 1, increment 1, width 2, separator [_]. *)
Definition suffix_numbering_config : RenameConfig := {|
  regex_match := ""; regex_replace := ""; regex_simple := false;
  name_mode := "Keep"; name_fixed := "";
  replace_str := ""; replace_with := ""; replace_case := false;
  case_mode := "Same";
  remove_first := 0; remove_last := 0; remove_from := 0; remove_to := 0;
  remove_chars := "";
  add_prefix := ""; add_suffix := ""; add_insert := ""; add_at_pos := 0;
  num_mode := "Suffix"; num_start := 1; num_incr := 1; num_pad := 2;
  num_sep := "_"; num_at := 0;
  ext_mode := "Same"; ext_fixed := ""
|}.

(** The name fixed to [x]. *)
Definition fixed_x_config : RenameConfig := {|
  regex_match := ""; regex_replace := ""; regex_simple := false;
  name_mode := "Fixed"; name_fixed := "x";
  replace_str := ""; replace_with := ""; replace_case := false;
  case_mode := "Same";
  remove_first := 0; remove_last := 0; remove_from := 0; remove_to := 0;
  remove_chars := "";
  add_prefix := ""; add_suffix := ""; add_insert := ""; add_at_pos := 0;
  num_mode := "None"; num_start := 1; num_incr := 1; num_pad := 0;
  num_sep := ""; num_at := 0;
  ext_mode := "Same"; ext_fixed := ""
|}.

(** Replace [a], case-insensitively, with a single backslash. *)
Definition backslash_replace_config : RenameConfig := {|
  regex_match := ""; regex_replace := ""; regex_simple := false;
  name_mode := "Keep"; name_fixed := "";
  replace_str := "a"; replace_with := "\"; replace_case := false;
  case_mode := "Same";
  remove_first := 0; remove_last := 0; remove_from := 0; remove_to := 0;
  remove_chars := "";
  add_prefix := ""; add_suffix := ""; add_insert := ""; add_at_pos := 0;
  num_mode := "None"; num_start := 1; num_incr := 1; num_pad := 0;
  num_sep := ""; num_at := 0;
  ext_mode := "Same"; ext_fixed := ""
|}.

(** Title case, everything else neutral. *)
Definition title_config : RenameConfig := {|
  regex_match := ""; regex_replace := ""; regex_simple := false;
  name_mode := "Keep"; name_fixed := "";
  replace_str := ""; replace_with := ""; replace_case := false;
  case_mode := "Title";
  remove_first := 0; remove_last := 0; remove_from := 0; remove_to := 0;
  remove_chars := "";
  add_prefix := ""; add_suffix := ""; add_insert := ""; add_at_pos := 0;
  num_mode := "None"; num_start := 1; num_incr := 1; num_pad := 0;
  num_sep := ""; num_at := 0;
  ext_mode := "Same"; ext_fixed := ""
|}.

(** Remove the range that ends at position 3, with no start set. *)
Definition remove_to_3_config : RenameConfig := {|
  regex_match := ""; regex_replace := ""; regex_simple := false;
  name_mode := "Keep"; name_fixed := "";
  replace_str := ""; replace_with := ""; replace_case := false;
  case_mode := "Same";
  remove_first := 0; remove_last := 0; remove_from := 0; remove_to := 3;
  remove_chars := "";
  add_prefix := ""; add_suffix := ""; add_insert := ""; add_at_pos := 0;
  num_mode := "None"; num_start := 1; num_incr := 1; num_pad := 0;
  num_sep := ""; num_at := 0;
  ext_mode := "Same"; ext_fixed := ""
|}.

Definition batch (names : list string) : list FileItem :=
  map (fun n => loaded "/d" n 0 0) names.

(** A directory as the list of the paths in it.  A rename fails when the
    source is missing or the target is there already. *)
Definition exists_in (w : list string) (p : string) : bool :=
  existsb (String.eqb p) w.

Definition dir_rename (w : list string) (old new : string)
  : list string * option string :=
  if negb (exists_in w old) then (w, Some "No such file or directory")
  else if exists_in w new then (w, Some "File exists")
  else (new :: filter (fun p => negb (String.eqb p old)) w, None).

(** The parent of [dir/name] and the join of a directory and a name. *)
Definition dir_parent (p : string) : string := Py.slice_to p (Py.rfind "/" p).
Definition dir_join (d n : string) : string := d ++ "/" ++ n.


(** ** The rest of the window and of the table

    The widgets of the control panel, as the values they hold; a directory
    as [load_directory] sees it. *)

Module Ui.

(** The text of a line edit, the current text of a combo box, the value of
    a spin box, the state of a check box. *)
Record Widgets : Type := {
  ui_regex_match : string;
  ui_regex_replace : string;
  ui_regex_simple : bool;
  ui_name_mode : string;
  ui_name_fixed : string;
  ui_repl_match : string;
  ui_repl_with : string;
  ui_repl_case : bool;
  ui_case_mode : string;
  ui_rem_first : Z;
  ui_rem_last : Z;
  ui_rem_from : Z;
  ui_rem_to : Z;
  ui_rem_chars : string;
  ui_add_prefix : string;
  ui_add_suffix : string;
  ui_add_insert : string;
  ui_add_at : Z;
  ui_num_mode : string;
  ui_num_start : Z;
  ui_num_incr : Z;
  ui_num_pad : Z;
  ui_num_sep : string;
  ui_num_at : Z;
  ui_ext_mode : string;
  ui_ext_fixed : string
}.

(** [update_config_from_ui()]: every field of the configuration is
    assigned from its widget. *)
Definition update_config_from_ui (ui : Widgets) : RenameConfig := {|
  regex_match := ui_regex_match ui;
  regex_replace := ui_regex_replace ui;
  regex_simple := ui_regex_simple ui;
  name_mode := ui_name_mode ui;
  name_fixed := ui_name_fixed ui;
  replace_str := ui_repl_match ui;
  replace_with := ui_repl_with ui;
  replace_case := ui_repl_case ui;
  case_mode := ui_case_mode ui;
  remove_first := ui_rem_first ui;
  remove_last := ui_rem_last ui;
  remove_from := ui_rem_from ui;
  remove_to := ui_rem_to ui;
  remove_chars := ui_rem_chars ui;
  add_prefix := ui_add_prefix ui;
  add_suffix := ui_add_suffix ui;
  add_insert := ui_add_insert ui;
  add_at_pos := ui_add_at ui;
  num_mode := ui_num_mode ui;
  num_start := ui_num_start ui;
  num_incr := ui_num_incr ui;
  num_pad := ui_num_pad ui;
  num_sep := ui_num_sep ui;
  num_at := ui_num_at ui;
  ext_mode := ui_ext_mode ui;
  ext_fixed := ui_ext_fixed ui
|}.

(** [reset_ui()]: the line edits it clears, the combo boxes it sets to
    their first entry, the spin boxes it sets to 0; the other widgets keep
    their values. *)
Definition reset_ui (ui : Widgets) : Widgets := {|
  ui_regex_match := "";
  ui_regex_replace := "";
  ui_regex_simple := ui_regex_simple ui;
  ui_name_mode := "Keep";
  ui_name_fixed := "";
  ui_repl_match := "";
  ui_repl_with := "";
  ui_repl_case := ui_repl_case ui;
  ui_case_mode := "Same";
  ui_rem_first := 0;
  ui_rem_last := 0;
  ui_rem_from := 0;
  ui_rem_to := 0;
  ui_rem_chars := "";
  ui_add_prefix := "";
  ui_add_suffix := "";
  ui_add_insert := "";
  ui_add_at := ui_add_at ui;
  ui_num_mode := "None";
  ui_num_start := ui_num_start ui;
  ui_num_incr := ui_num_incr ui;
  ui_num_pad := ui_num_pad ui;
  ui_num_sep := ui_num_sep ui;
  ui_num_at := ui_num_at ui;
  ui_ext_mode := "Same";
  ui_ext_fixed := ""
|}.

(** [refresh_preview()] *)
Definition refresh_preview
           (re_sub : string -> string -> string -> result string)
           (ui : Widgets) (files : list FileItem)
  : list FileItem * option exn :=
  FileTableModel.update_previews re_sub (update_config_from_ui ui) files.

End Ui.

Module Directory.

(** What a call on the file system gives: a value, a [PermissionError],
    or another exception. *)
Inductive probe (A : Type) : Type :=
| Got (a : A)
| Denied
| Failed.

Arguments Got {A} a.
Arguments Denied {A}.
Arguments Failed {A}.

(** One entry of the iteration: its name, what [is_file()] gives, and
    what [stat()] gives, the size and the time stamp. *)
Record DirEntry : Type := {
  entry_name : string;
  entry_is_file : probe bool;
  entry_stat : probe (Z * Z)
}.

Section Load.

(** [p / name], as a text. *)
Variable child : string -> string -> string.

Definition new_item (dir : string) (e : DirEntry) (st : Z * Z) : FileItem := {|
  path := child dir (entry_name e);
  original_name := entry_name e;
  new_name := entry_name e;
  size := fst st;
  modified := snd st;
  status := "OK"
|}.

(** The loop over [p.iterdir()], with the table so far.  The result is the
    table, and whether an exception other than [PermissionError] left the
    function. *)
Fixpoint load_loop (dir : string) (entries : list DirEntry)
         (files : list FileItem) : list FileItem * bool :=
  match entries with
  | [] => (files, false)
  | e :: rest =>
      match entry_is_file e with
      | Got true =>
          match entry_stat e with
          | Got st => load_loop dir rest (files ++ [new_item dir e st])%list
          | Denied => (files, false)
          | Failed => (files, true)
          end
      | Got false => load_loop dir rest files
      | Denied => (files, false)
      | Failed => (files, true)
      end
  end.

(** [load_directory(path)], given whether the path is an existing
    directory and what listing it gives. *)
Definition load_directory (dir : string) (exists_and_is_dir : bool)
           (listing : probe (list DirEntry)) : list FileItem * bool :=
  if exists_and_is_dir then
    match listing with
    | Got entries => load_loop dir entries []
    | Denied => ([], false)
    | Failed => ([], true)
    end
  else ([], false).

End Load.

End Directory.

(** ** Further wording *)

(** The configuration with the regex stage switched off. *)
Definition without_regex (c : RenameConfig) : RenameConfig := {|
  regex_match := ""; regex_replace := regex_replace c;
  regex_simple := regex_simple c;
  name_mode := name_mode c; name_fixed := name_fixed c;
  replace_str := replace_str c; replace_with := replace_with c;
  replace_case := replace_case c;
  case_mode := case_mode c;
  remove_first := remove_first c; remove_last := remove_last c;
  remove_from := remove_from c; remove_to := remove_to c;
  remove_chars := remove_chars c;
  add_prefix := add_prefix c; add_suffix := add_suffix c;
  add_insert := add_insert c; add_at_pos := add_at_pos c;
  num_mode := num_mode c; num_start := num_start c; num_incr := num_incr c;
  num_pad := num_pad c; num_sep := num_sep c; num_at := num_at c;
  ext_mode := ext_mode c; ext_fixed := ext_fixed c
|}.

(** The pattern the regex stage hands to [re.sub]. *)
Definition regex_pattern (c : RenameConfig) : string :=
  if regex_simple c then Py.replace (Re.escape (regex_match c)) "\*" ".*"
  else regex_match c.

(** A wildcard text as a regular expression, character by character: a
    star is [.*], a special character is quoted, any other stands for
    itself. *)
Fixpoint wildcard_pattern (s : string) : string :=
  match s with
  | "" => ""
  | String c s' =>
      if Ascii.eqb c "*" then ".*" ++ wildcard_pattern s'
      else if Py.mem c Re.special_chars
           then String "\" (String c (wildcard_pattern s'))
           else String c (wildcard_pattern s')
  end.

(** [old] occurs in [s] at position [k], under the test [here]. *)
Definition occurs_at (here : string -> bool) (s : string) (k : nat) : Prop :=
  (k < String.length s)%nat /\ here (Py.drop k s) = true.

(** A text of ASCII characters: on such a text the case mapping of [Py]
    and the case-insensitive search of [Re] are Python's. *)
Definition is_ascii (c : ascii) : bool := (nat_of_ascii c <? 128)%nat.

Definition ascii_text (s : string) : Prop := Re.all_chars is_ascii s = true.

(** [s] opens with the text [old] in some casing: its first characters,
    as many as [old] has, are those of [old] once both are lowercased. *)
Definition opens_ignoring_case (old s : string) : bool :=
  String.eqb (Py.lower old) (Py.lower (Py.take (String.length old) s)).

(** [out] is [s] with [new] in the place of every occurrence, of length
    [w], that the test [here] finds: the occurrences are taken from left
    to right, and the search goes on after the end of each one. *)
Inductive replaced_all (here : string -> bool) (w : nat) (new : string)
  : string -> string -> Prop :=
| replaced_end : replaced_all here w new "" ""
| replaced_here (s out : string) :
    s <> "" -> here s = true ->
    replaced_all here w new (Py.drop w s) out ->
    replaced_all here w new s (new ++ out)
| replaced_next (c : ascii) (s out : string) :
    here (String c s) = false ->
    replaced_all here w new s out ->
    replaced_all here w new (String c s) (String c out).

(** ** [pathlib.PurePosixPath], as texts

    A path is parsed into its root and its components, and printed back
    as [str(path)] prints it. *)

Module PurePath.

(** The root: no leading slash, two leading slashes exactly, or one. *)
Definition root_of (s : string) : string :=
  match s with
  | String a r1 =>
      if Ascii.eqb a "/" then
        match r1 with
        | String b r2 =>
            if Ascii.eqb b "/" then
              match r2 with
              | String c _ => if Ascii.eqb c "/" then "/" else "//"
              | "" => "//"
              end
            else "/"
        | "" => "/"
        end
      else ""
  | "" => ""
  end.

Definition parts (s : string) : list string :=
  filter Pathlib.is_component (Py.split "/" s).

Definition parse (s : string) : string * list string := (root_of s, parts s).

(** [str(path)] *)
Definition render (p : string * list string) : string :=
  match snd p with
  | [] => if String.eqb (fst p) "" then "." else fst p
  | _ => fst p ++ String.concat "/" (snd p)
  end.

(** [path.parent] *)
Definition parent (s : string) : string :=
  let p := parse s in render (fst p, removelast (snd p)).

(** [path / name]: a name with a root replaces the path. *)
Definition joinpath (d n : string) : string :=
  let pn := parse n in
  if String.eqb (fst pn) "" then
    let pd := parse d in render (fst pd, (snd pd ++ snd pn)%list)
  else render pn.

End PurePath.






(** ** The listing of a directory, entry by entry *)

(** A call on the entry fails: [is_file()] raises, or it is a regular
    file and [stat()] raises. *)
Definition entry_fails (e : Directory.DirEntry) : bool :=
  match Directory.entry_is_file e with
  | Directory.Got true =>
      match Directory.entry_stat e with
      | Directory.Got _ => false
      | _ => true
      end
  | Directory.Got false => false
  | _ => true
  end.

(** The failing call raises something else than [PermissionError]. *)
Definition failure_propagates (e : Directory.DirEntry) : bool :=
  match Directory.entry_is_file e with
  | Directory.Failed => true
  | Directory.Got true =>
      match Directory.entry_stat e with
      | Directory.Failed => true
      | _ => false
      end
  | _ => false
  end.

(** The position of the first entry on which a call fails, or the number
    of entries when none does. *)
Fixpoint first_failure (entries : list Directory.DirEntry) : nat :=
  match entries with
  | [] => O
  | e :: rest => if entry_fails e then O else S (first_failure rest)
  end.

(** The items of the regular files of a listing, in its order. *)
Definition items_of (child : string -> string -> string) (dir : string)
           (entries : list Directory.DirEntry) : list FileItem :=
  flat_map (fun e =>
              match Directory.entry_is_file e, Directory.entry_stat e with
              | Directory.Got true, Directory.Got st =>
                  [Directory.new_item child dir e st]
              | _, _ => []
              end) entries.

(** The default configuration with the range of the remove stage set. *)
Definition range_config (from to : Z) : RenameConfig := {|
  regex_match := ""; regex_replace := ""; regex_simple := false;
  name_mode := "Keep"; name_fixed := "";
  replace_str := ""; replace_with := ""; replace_case := false;
  case_mode := "Same";
  remove_first := 0; remove_last := 0; remove_from := from; remove_to := to;
  remove_chars := "";
  add_prefix := ""; add_suffix := ""; add_insert := ""; add_at_pos := 0;
  num_mode := "None"; num_start := 1; num_incr := 1; num_pad := 0;
  num_sep := ""; num_at := 0;
  ext_mode := "Same"; ext_fixed := ""
|}.

(** An engine that rejects every pattern with [re.error]. *)
Definition re_rejects : string -> string -> string -> result string :=
  fun _ _ _ => Raises ReError.

(** An engine that fails, with an exception other than [re.error], on the
    text [a], and leaves every other text as it is. *)
Definition re_fails_on_a : string -> string -> string -> result string :=
  fun _ _ s => if String.eqb s "a" then Raises OtherError else Returns s.

(** The default configuration with the regex stage and the replace stage
    set. *)
Definition search_config (pattern : string) (simple : bool)
           (old new : string) (match_case : bool) : RenameConfig := {|
  regex_match := pattern; regex_replace := ""; regex_simple := simple;
  name_mode := "Keep"; name_fixed := "";
  replace_str := old; replace_with := new; replace_case := match_case;
  case_mode := "Same";
  remove_first := 0; remove_last := 0; remove_from := 0; remove_to := 0;
  remove_chars := "";
  add_prefix := ""; add_suffix := ""; add_insert := ""; add_at_pos := 0;
  num_mode := "None"; num_start := 1; num_incr := 1; num_pad := 0;
  num_sep := ""; num_at := 0;
  ext_mode := "Same"; ext_fixed := ""
|}.

(** An item as [load_directory] makes it. *)
Definition as_loaded (child : string -> string -> string) (dir : string)
           (item : FileItem) : Prop :=
  new_name item = original_name item /\ status item = "OK" /\
  path item = child dir (original_name item).

(** An entry that [is_file()] reports as a regular file. *)
Definition is_regular (e : Directory.DirEntry) : bool :=
  match Directory.entry_is_file e with
  | Directory.Got true => true
  | _ => false
  end.

(** The default configuration with the name stage set. *)
Definition name_config (mode fixed : string) : RenameConfig := {|
  regex_match := ""; regex_replace := ""; regex_simple := false;
  name_mode := mode; name_fixed := fixed;
  replace_str := ""; replace_with := ""; replace_case := false;
  case_mode := "Same";
  remove_first := 0; remove_last := 0; remove_from := 0; remove_to := 0;
  remove_chars := "";
  add_prefix := ""; add_suffix := ""; add_insert := ""; add_at_pos := 0;
  num_mode := "None"; num_start := 1; num_incr := 1; num_pad := 0;
  num_sep := ""; num_at := 0;
  ext_mode := "Same"; ext_fixed := ""
|}.

(** A sample of widgets and a sample listing. *)
Definition busy_widgets : Ui.Widgets := {|
  Ui.ui_regex_match := "("; Ui.ui_regex_replace := "\";
  Ui.ui_regex_simple := true;
  Ui.ui_name_mode := "Reverse"; Ui.ui_name_fixed := "n";
  Ui.ui_repl_match := "a"; Ui.ui_repl_with := "\"; Ui.ui_repl_case := true;
  Ui.ui_case_mode := "Title";
  Ui.ui_rem_first := 1; Ui.ui_rem_last := 2; Ui.ui_rem_from := 3;
  Ui.ui_rem_to := 4; Ui.ui_rem_chars := "xyz";
  Ui.ui_add_prefix := "p"; Ui.ui_add_suffix := "s"; Ui.ui_add_insert := "i";
  Ui.ui_add_at := 5;
  Ui.ui_num_mode := "Insert"; Ui.ui_num_start := 10; Ui.ui_num_incr := 5;
  Ui.ui_num_pad := 3; Ui.ui_num_sep := "-"; Ui.ui_num_at := 2;
  Ui.ui_ext_mode := "Fixed"; Ui.ui_ext_fixed := "bak"
|}.

Definition sample_listing : list Directory.DirEntry := [
  {| Directory.entry_name := "a.txt";
     Directory.entry_is_file := Directory.Got true;
     Directory.entry_stat := Directory.Got (10, 100) |};
  {| Directory.entry_name := "sub";
     Directory.entry_is_file := Directory.Got false;
     Directory.entry_stat := Directory.Got (0, 100) |};
  {| Directory.entry_name := "b.txt";
     Directory.entry_is_file := Directory.Got true;
     Directory.entry_stat := Directory.Denied |};
  {| Directory.entry_name := "c.txt";
     Directory.entry_is_file := Directory.Got true;
     Directory.entry_stat := Directory.Got (30, 100) |}
].

(** * Properties *)

(** ** Strings *)

Section StringFacts.

Lemma length_append (s t : string) :
  String.length (s ++ t) = (String.length s + String.length t)%nat.
Proof. induction s as [|c s IH]; simpl; [reflexivity | now rewrite IH]. Qed.

Lemma append_empty_r (s : string) : s ++ "" = s.
Proof. induction s as [|c s IH]; simpl; [reflexivity | now rewrite IH]. Qed.

Lemma append_assoc (s t u : string) : (s ++ t) ++ u = s ++ t ++ u.
Proof. induction s as [|c s IH]; simpl; [reflexivity | now rewrite IH]. Qed.

Lemma take_drop (n : nat) (s : string) : Py.take n s ++ Py.drop n s = s.
Proof.
  revert s; induction n as [|n IH]; intros [|c s]; simpl; try reflexivity.
  now rewrite IH.
Qed.

Lemma length_take (n : nat) (s : string) :
  String.length (Py.take n s) = Nat.min n (String.length s).
Proof.
  revert s; induction n as [|n IH]; intros [|c s]; simpl; try reflexivity.
  now rewrite IH.
Qed.

Lemma take_0 (s : string) : Py.take 0 s = "".
Proof. now destruct s. Qed.

Lemma drop_0 (s : string) : Py.drop 0 s = s.
Proof. now destruct s. Qed.

Lemma take_all (n : nat) (s : string) :
  (String.length s <= n)%nat -> Py.take n s = s.
Proof.
  revert s; induction n as [|n IH]; intros [|c s]; simpl; intros H;
    try reflexivity; try lia.
  rewrite IH by lia. reflexivity.
Qed.

Lemma take_app_length (s t : string) : Py.take (String.length s) (s ++ t) = s.
Proof. induction s as [|c s IH]; simpl; [reflexivity | now rewrite IH]. Qed.

Lemma drop_app_length (s t : string) : Py.drop (String.length s) (s ++ t) = t.
Proof. induction s as [|c s IH]; simpl; [reflexivity | exact IH]. Qed.

(** A slice bound inside the string is the bound itself. *)
Lemma slice_index_inside (n : nat) (i : Z) :
  0 <= i <= Z.of_nat n -> Py.slice_index n i = Z.to_nat i.
Proof.
  intros H. unfold Py.slice_index.
  destruct (Z.ltb_spec i 0); lia.
Qed.

Lemma slice_index_beyond (n : nat) (i : Z) :
  Z.of_nat n <= i -> Py.slice_index n i = n.
Proof.
  intros H. unfold Py.slice_index.
  destruct (Z.ltb_spec i 0); lia.
Qed.

(** [s[:i] + s[i:] == s] for every bound. *)
Lemma slice_to_from (s : string) (i : Z) :
  Py.slice_to s i ++ Py.slice_from s i = s.
Proof. apply take_drop. Qed.

Lemma rfind_bounds (c : ascii) (s : string) : -1 <= Py.rfind c s < Py.len s.
Proof.
  unfold Py.len. induction s as [|a s IH]; simpl String.length; simpl Py.rfind.
  - lia.
  - destruct (Z.leb_spec 0 (Py.rfind c s)); [lia|].
    destruct (Ascii.eqb a c); lia.
Qed.

Lemma rfind_absent (c : ascii) (s : string) :
  Py.mem c s = false -> Py.rfind c s = -1.
Proof.
  induction s as [|a s IH]; simpl; [reflexivity|].
  intros H. apply orb_false_iff in H as [Ha Hs].
  rewrite (IH Hs), Ha. reflexivity.
Qed.

(** The last occurrence: a [c] followed by a text without [c]. *)
Lemma rfind_last (c : ascii) (s e : string) :
  Py.mem c e = false -> Py.rfind c (s ++ String c e) = Py.len s.
Proof.
  intros He. unfold Py.len. induction s as [|a s IH].
  - simpl. rewrite (rfind_absent _ _ He). simpl. now rewrite Ascii.eqb_refl.
  - simpl String.append. simpl Py.rfind. rewrite IH.
    destruct (Z.leb_spec 0 (Z.of_nat (String.length s))); simpl String.length; lia.
Qed.

Lemma split_no_separator (c : ascii) (s : string) :
  Py.mem c s = false -> Py.split c s = [s].
Proof.
  induction s as [|a s IH]; simpl; [reflexivity|].
  intros H. apply orb_false_iff in H as [Ha Hs].
  rewrite Ha, (IH Hs). reflexivity.
Qed.

End StringFacts.

(** ** The stem and the extension *)

(** A name without a separator, other than ["."], is its own last
    component. *)
Lemma name_of_component (s : string) :
  Py.mem "/" s = false -> s <> "." -> Pathlib.name s = s.
Proof.
  intros Hsep Hdot. unfold Pathlib.name.
  rewrite (split_no_separator _ _ Hsep). simpl.
  unfold Pathlib.is_component.
  destruct (String.eqb_spec s "") as [->|Hne]; [reflexivity|].
  destruct (String.eqb_spec s "."); [contradiction|reflexivity].
Qed.

(** The two parts always make up the name again. *)
Lemma stem_suffix (s : string) :
  Pathlib.stem s ++ Pathlib.suffix s = Pathlib.name s.
Proof.
  unfold Pathlib.stem, Pathlib.suffix.
  destruct (Pathlib.has_suffix (Pathlib.name s)).
  - apply slice_to_from.
  - apply append_empty_r.
Qed.

Lemma split_at_last_dot (x s e : string) :
  Pathlib.name x = s ++ "." ++ e -> Py.mem "." e = false ->
  s <> "" -> e <> "" ->
  Pathlib.stem x = s /\ Pathlib.suffix x = "." ++ e.
Proof.
  intros Hx He Hs Hne.
  assert (Hi : Py.rfind "." (Pathlib.name x) = Py.len s)
    by (rewrite Hx; apply (rfind_last "." s e He)).
  assert (Hlen : Py.len (Pathlib.name x) = Py.len s + 1 + Py.len e).
  { rewrite Hx. unfold Py.len. rewrite length_append. simpl String.length. lia. }
  assert (0 < Py.len s) by (unfold Py.len; destruct s; [contradiction | simpl; lia]).
  assert (0 < Py.len e) by (unfold Py.len; destruct e; [contradiction | simpl; lia]).
  assert (Hhas : Pathlib.has_suffix (Pathlib.name x) = true).
  { unfold Pathlib.has_suffix. rewrite Hi, Hlen.
    apply andb_true_iff; split; apply Z.ltb_lt; lia. }
  unfold Pathlib.stem, Pathlib.suffix. rewrite Hhas, Hi.
  unfold Py.slice_to, Py.slice_from.
  rewrite slice_index_inside by (unfold Py.len in *; lia).
  unfold Py.len. rewrite Nat2Z.id, Hx.
  split; [apply take_app_length | apply drop_app_length].
Qed.

Lemma split_without_suffix (x : string) :
  Pathlib.has_suffix (Pathlib.name x) = false ->
  Pathlib.stem x = Pathlib.name x /\ Pathlib.suffix x = "".
Proof.
  intros H. unfold Pathlib.stem, Pathlib.suffix. rewrite H. split; reflexivity.
Qed.

Lemma no_suffix_without_dot (nm : string) :
  Py.mem "." nm = false -> Pathlib.has_suffix nm = false.
Proof.
  intros H. unfold Pathlib.has_suffix. rewrite (rfind_absent _ _ H). reflexivity.
Qed.

Lemma no_suffix_at_edge (s e : string) :
  Py.mem "." e = false -> s = "" \/ e = "" ->
  Pathlib.has_suffix (s ++ "." ++ e) = false.
Proof.
  intros He Hedge. unfold Pathlib.has_suffix.
  change (s ++ "." ++ e) with (s ++ String "." e).
  rewrite (rfind_last "." s e He).
  destruct Hedge as [-> | ->].
  - reflexivity.
  - unfold Py.len. rewrite length_append. simpl String.length.
    destruct (Z.ltb_spec 0 (Z.of_nat (String.length s))); simpl; [|reflexivity].
    apply Z.ltb_ge. lia.
Qed.

(** C7, as amended.  The name splits at its last dot: the extension is the
    text from that dot on, the stem what precedes it.  The extension is
    empty, and the stem the whole name, when there is no dot, when the last
    dot is the first character, or when the last dot is the last
    character. *)
Theorem C7_split_at_last_dot :
  (forall x, Py.mem "." (Pathlib.name x) = false ->
     Pathlib.stem x = Pathlib.name x /\ Pathlib.suffix x = "") /\
  (forall x s e, Pathlib.name x = s ++ "." ++ e -> Py.mem "." e = false ->
     (s <> "" -> e <> "" ->
        Pathlib.stem x = s /\ Pathlib.suffix x = "." ++ e) /\
     (s = "" \/ e = "" ->
        Pathlib.stem x = Pathlib.name x /\ Pathlib.suffix x = "")) /\
  (Pathlib.stem "archive.tar.gz" = "archive.tar" /\
   Pathlib.suffix "archive.tar.gz" = ".gz") /\
  (Pathlib.stem ".gitignore" = ".gitignore" /\
   Pathlib.suffix ".gitignore" = "").
Proof.
  split; [|split; [|split; split; reflexivity]].
  - intros x H. apply split_without_suffix, no_suffix_without_dot, H.
  - intros x s e Hx He. split.
    + intros Hs Hne. now apply split_at_last_dot.
    + intros Hedge. apply split_without_suffix. rewrite Hx.
      now apply no_suffix_at_edge.
Qed.

Lemma C7_split_at_last_dot_witness :
  Pathlib.name "report.final.pdf" = "report.final" ++ "." ++ "pdf" /\
  Py.mem "." "pdf" = false /\ "report.final" <> "" /\ "pdf" <> "" /\
  Pathlib.stem "report.final.pdf" = "report.final" /\
  Pathlib.suffix "report.final.pdf" = "." ++ "pdf".
Proof.
  split; [reflexivity|]. split; [reflexivity|].
  split; [discriminate|]. split; [discriminate|].
  apply (proj1 (proj1 (proj2 C7_split_at_last_dot)
                  "report.final.pdf" "report.final" "pdf" eq_refl eq_refl));
    discriminate.
Defined.

(** C7 as stated fails on a name that ends with its last dot: the name
    [...] is not a dotfile without a further dot, the text from its last
    dot on is [.], and the code's extension is empty. *)
Lemma C7_counterexample :
  Pathlib.name "..." = "..." /\
  spec_extension (Pathlib.name "...") = "." /\
  Pathlib.suffix "..." = "" /\
  Pathlib.suffix "..." <> spec_extension (Pathlib.name "...").
Proof. repeat split; try reflexivity. discriminate. Qed.

(** ** The identity configuration *)

(** C6, as amended.  With the identity configuration, [process] returns
    the name unchanged, for every index and for every name that is one
    path component: it holds no [/] and is not [.]. *)
Theorem C6_identity_config_keeps_name
        (re_sub : string -> string -> string -> result string)
        (name : string) (config : RenameConfig) (index : Z) :
  identity_config config ->
  Py.mem "/" name = false -> name <> "." ->
  RenamingEngine.process re_sub name config index = Returns name.
Proof.
  intros (Hre & Hname & Hrepl & Hcase & Hfirst & Hlast & Hfrom & Hto & Hchars
          & Hpre & Hsuf & Hins & Hnum & Hext) Hsep Hdot.
  unfold RenamingEngine.process, RenamingEngine.stage_regex,
    RenamingEngine.stage_name, RenamingEngine.stage_replace,
    RenamingEngine.stage_remove, RenamingEngine.remove_characters,
    RenamingEngine.remove_range, RenamingEngine.remove_last_n,
    RenamingEngine.remove_first_n, RenamingEngine.stage_add,
    RenamingEngine.stage_numbering, RenamingEngine.stage_case,
    RenamingEngine.stage_extension.
  rewrite Hre, Hname, Hrepl, Hcase, Hfirst, Hlast, Hfrom, Hto, Hchars,
    Hpre, Hsuf, Hins, Hnum, Hext.
  simpl. rewrite stem_suffix, name_of_component by assumption. reflexivity.
Qed.

Lemma C6_identity_config_keeps_name_witness :
  identity_config RenameConfig_init /\
  Py.mem "/" "archive.tar.gz" = false /\ "archive.tar.gz" <> "." /\
  RenamingEngine.process re_unused "archive.tar.gz" RenameConfig_init 7
  = Returns "archive.tar.gz".
Proof.
  assert (Hid : identity_config RenameConfig_init)
    by (unfold identity_config; simpl; repeat split; reflexivity).
  split; [exact Hid|]. split; [reflexivity|]. split; [discriminate|].
  apply (C6_identity_config_keeps_name re_unused "archive.tar.gz"
           RenameConfig_init 7 Hid eq_refl).
  discriminate.
Defined.

(** C6 as stated fails on a name that holds a separator: only its last
    component comes back. *)
Lemma C6_counterexample :
  identity_config RenameConfig_init /\
  RenamingEngine.process re_unused "a/b.txt" RenameConfig_init 1 = Returns "b.txt" /\
  RenamingEngine.process re_unused "a/b.txt" RenameConfig_init 1 <> Returns "a/b.txt".
Proof.
  split; [unfold identity_config; simpl; repeat split; reflexivity|].
  split; [reflexivity | discriminate].
Qed.

(** ** Removal of a range *)

Lemma drop_min (n : nat) (s : string) :
  Py.drop (Nat.min n (String.length s)) s = Py.drop n s.
Proof.
  revert s; induction n as [|n IH]; intros [|c s]; simpl; try reflexivity.
  apply IH.
Qed.

(** C10.  With [remove_from] at 0 and [remove_to] at [t > 0], the range
    step removes the first [t] characters of the stem (all of them when
    the stem is shorter); with both at 0 it does nothing. *)
Theorem C10_range_without_from (config : RenameConfig) (stem : string) :
  remove_from config = 0 ->
  (0 < remove_to config ->
     RenamingEngine.remove_range config stem
       = Py.drop (Z.to_nat (remove_to config)) stem /\
     exists removed,
       stem = removed ++ RenamingEngine.remove_range config stem /\
       Py.len removed = Z.min (remove_to config) (Py.len stem)) /\
  (remove_to config = 0 -> RenamingEngine.remove_range config stem = stem).
Proof.
  intros Hfrom. unfold RenamingEngine.remove_range. rewrite Hfrom. split.
  - intros Ht.
    assert (Hdrop : (if Z.max 0 (0 - 1) <? Py.len stem
                     then Py.slice_to stem (Z.max 0 (0 - 1)) ++
                          Py.slice_from stem (remove_to config)
                     else stem) = Py.drop (Z.to_nat (remove_to config)) stem).
    { change (Z.max 0 (0 - 1)) with 0.
      destruct (Z.ltb_spec 0 (Py.len stem)) as [Hlen | Hlen].
      - unfold Py.slice_to, Py.slice_from, Py.slice_index.
        destruct (Z.ltb_spec (remove_to config) 0); [lia|].
        simpl. apply drop_min.
      - unfold Py.len in Hlen. destruct stem; simpl in Hlen; [|lia].
        now destruct (Z.to_nat (remove_to config)). }
    destruct (Z.ltb_spec 0 (remove_to config)); [|lia].
    simpl orb. cbv iota. rewrite Hdrop. split; [reflexivity|].
    exists (Py.take (Z.to_nat (remove_to config)) stem). split.
    + symmetry. apply take_drop.
    + unfold Py.len. rewrite length_take. lia.
  - intros ->. reflexivity.
Qed.

Lemma C10_range_without_from_witness :
  remove_from remove_to_3_config = 0 /\ 0 < remove_to remove_to_3_config /\
  RenamingEngine.remove_range remove_to_3_config "abcdef" = "def".
Proof.
  split; [reflexivity|]. split; [reflexivity|].
  exact (proj1 (proj1 (C10_range_without_from remove_to_3_config "abcdef" eq_refl)
                  eq_refl)).
Defined.

(** ** Numbering *)

Section Decimal.

Import Decimal.

Lemma length_repeat_char (c : ascii) (n : nat) :
  String.length (Py.repeat_char c n) = n.
Proof. induction n as [|n IH]; simpl; [reflexivity | now rewrite IH]. Qed.

(** [zfill] without its shortcut: the zeros go after a leading sign. *)
Lemma zfill_unfold (s : string) (width : Z) :
  Py.zfill s width =
  let fill := Py.repeat_char "0" (Z.to_nat (width - Py.len s)) in
  match s with
  | String c s' =>
      if Ascii.eqb c "+" || Ascii.eqb c "-" then String c (fill ++ s')
      else fill ++ s
  | "" => fill
  end.
Proof.
  unfold Py.zfill. destruct (Z.leb_spec width (Py.len s)) as [Hle|Hlt];
    [|reflexivity].
  replace (Z.to_nat (width - Py.len s)) with O by lia. simpl.
  destruct s as [|c s']; [reflexivity|].
  now destruct (Ascii.eqb c "+" || Ascii.eqb c "-").
Qed.

Lemma len_zfill (s : string) (width : Z) :
  Py.len (Py.zfill s width) = Z.max width (Py.len s).
Proof.
  unfold Py.zfill. destruct (Z.leb_spec width (Py.len s)) as [Hle|Hlt]; [lia|].
  unfold Py.len in *. destruct s as [|c s'].
  - rewrite length_repeat_char. simpl in *. lia.
  - destruct (Ascii.eqb c "+" || Ascii.eqb c "-"); simpl String.length in *;
      rewrite length_append, length_repeat_char; simpl String.length; lia.
Qed.

(** Leading zeros do not change what a text of digits denotes. *)
Lemma read_zeros (k : nat) (u : uint) :
  NilEmpty.uint_of_string (Py.repeat_char "0" k ++ NilEmpty.string_of_uint u)
  = Some (Nat.iter k D0 u).
Proof.
  induction k as [|k IH]; simpl.
  - apply NilEmpty.usu.
  - now rewrite IH.
Qed.

Lemma of_uint_zeros (k : nat) (u : uint) : Z.of_uint (Nat.iter k D0 u) = Z.of_uint u.
Proof. induction k as [|k IH]; simpl; [reflexivity | exact IH]. Qed.

Lemma read_padded (k : nat) (u : uint) :
  u <> Nil ->
  NilZero.uint_of_string (Py.repeat_char "0" k ++ NilEmpty.string_of_uint u)
  = Some (Nat.iter k D0 u).
Proof.
  intros Hu. unfold NilZero.uint_of_string.
  rewrite <- read_zeros.
  destruct (Py.repeat_char "0" k ++ NilEmpty.string_of_uint u) eqn:E;
    [|reflexivity].
  destruct k; [|discriminate]. simpl in E. now destruct u.
Qed.

(** The text of a digit sequence opens with a digit, not with a sign. *)
Lemma digits_open_unsigned (u : uint) :
  u <> Nil ->
  exists c rest, NilEmpty.string_of_uint u = String c rest /\
                 Ascii.eqb c "+" || Ascii.eqb c "-" = false.
Proof.
  intros Hu. destruct u; [contradiction| ..]; simpl; eexists; eexists;
    (split; [reflexivity | reflexivity]).
Qed.

Lemma string_of_uint_nonnil (u : uint) :
  u <> Nil -> NilZero.string_of_uint u = NilEmpty.string_of_uint u.
Proof. now destruct u. Qed.

(** The zero-padded text of [v]: its sign, the zeros, its digits; it reads
    back as [v]. *)
Lemma zfill_str_of_int (v width : Z) :
  exists digits,
    Py.str_of_int v = (if v <? 0 then "-" else "") ++ digits /\
    Py.zfill (Py.str_of_int v) width
    = (if v <? 0 then "-" else "")
        ++ Py.repeat_char "0" (Z.to_nat (width - Py.len (Py.str_of_int v)))
        ++ digits /\
    int_of_str (Py.zfill (Py.str_of_int v) width) = Some v.
Proof.
  rewrite zfill_unfold. cbv zeta.
  generalize (Z.to_nat (width - Py.len (Py.str_of_int v))) as k. intros k.
  unfold Py.str_of_int, int_of_str.
  assert (Hshape : (0 <= v /\ exists u, Z.to_int v = Pos u /\ u <> Nil) \/
                   (v < 0 /\ exists u, Z.to_int v = Neg u /\ u <> Nil)).
  { destruct v as [|p|p]; simpl.
    - left. split; [lia|]. eexists; split; [reflexivity | discriminate].
    - left. split; [lia|]. eexists; split; [reflexivity|].
      apply Unsigned.to_uint_nonnil.
    - right. split; [lia|]. eexists; split; [reflexivity|].
      apply Unsigned.to_uint_nonnil. }
  pose proof (DecimalZ.of_to v) as Hback.
  destruct Hshape as [[Hv (u & Hu & Hnil)] | [Hv (u & Hu & Hnil)]];
    rewrite Hu in *; simpl NilZero.string_of_int;
    rewrite (string_of_uint_nonnil u Hnil).
  - destruct (Z.ltb_spec v 0); [lia|].
    exists (NilEmpty.string_of_uint u). split; [reflexivity|].
    destruct (digits_open_unsigned u Hnil) as (c & rest & Hc & Hsign).
    rewrite Hc, Hsign, <- Hc. split; [reflexivity|].
    unfold NilZero.int_of_string.
    destruct (Py.repeat_char "0" k ++ NilEmpty.string_of_uint u) as [|a s'] eqn:E.
    { destruct k; [|discriminate]. simpl in E. rewrite Hc in E. discriminate. }
    assert (Ha : Ascii.eqb a "-" = false).
    { destruct k; simpl in E.
      - rewrite Hc in E. injection E as <- _.
        apply orb_false_iff in Hsign. apply Hsign.
      - injection E as <- _. reflexivity. }
    rewrite Ha, <- E, (read_padded k u Hnil). simpl.
    f_equal. rewrite <- Hback. simpl. apply of_uint_zeros.
  - destruct (Z.ltb_spec v 0); [|lia].
    exists (NilEmpty.string_of_uint u). split; [reflexivity|].
    simpl. split; [reflexivity|].
    rewrite (read_padded k u Hnil). simpl.
    f_equal. rewrite <- Hback. simpl. now rewrite of_uint_zeros.
Qed.

End Decimal.

(** C2.  When the numbering mode is not [None], the number is
    [start + index * increment]; its text is the decimal text of the
    number, zero-padded to the width; the separator goes before the number
    in the mode Suffix, after it in the modes Prefix and Insert. *)
Theorem C2_numbering_token (config : RenameConfig) (index : Z) (stem : string) :
  num_mode config <> "None" ->
  let value := num_start config + index * num_incr config in
  let number := RenamingEngine.num_str config index in
  (int_of_str number = Some value /\
   Py.len number = Z.max (num_pad config) (Py.len (Py.str_of_int value)) /\
   exists digits,
     Py.str_of_int value = (if value <? 0 then "-" else "") ++ digits /\
     number = (if value <? 0 then "-" else "")
                ++ Py.repeat_char "0"
                     (Z.to_nat (num_pad config - Py.len (Py.str_of_int value)))
                ++ digits) /\
  (num_mode config = "Suffix" ->
     RenamingEngine.stage_numbering config index stem
     = stem ++ num_sep config ++ number) /\
  (num_mode config = "Prefix" ->
     RenamingEngine.stage_numbering config index stem
     = number ++ num_sep config ++ stem) /\
  (num_mode config = "Insert" ->
     RenamingEngine.stage_numbering config index stem
     = Py.slice_to stem (num_at config) ++ number ++ num_sep config
         ++ Py.slice_from stem (num_at config)).
Proof.
  intros Hmode value number.
  unfold number, RenamingEngine.num_str, RenamingEngine.num_val. fold value.
  split.
  - destruct (zfill_str_of_int value (num_pad config)) as (digits & H1 & H2 & H3).
    split; [exact H3|]. split; [apply len_zfill|].
    exists digits. split; assumption.
  - unfold RenamingEngine.stage_numbering, RenamingEngine.full_num_str,
      RenamingEngine.num_str, RenamingEngine.num_val. fold value.
    destruct (String.eqb_spec (num_mode config) "None"); [contradiction|].
    simpl negb. cbv iota.
    repeat split; intros ->; simpl; try reflexivity.
    all: now rewrite append_assoc.
Qed.

Lemma C2_numbering_token_witness :
  num_mode suffix_numbering_config <> "None" /\
  RenamingEngine.stage_numbering suffix_numbering_config 7 "photo" = "photo_08".
Proof.
  split; [discriminate|].
  assert (Hmode : num_mode suffix_numbering_config <> "None") by discriminate.
  exact (proj1 (proj2 (C2_numbering_token suffix_numbering_config 7 "photo" Hmode))
           eq_refl).
Defined.

(** C1.  On the batch [a.txt], [b.txt] with numbering as a suffix from 1
    by 1, width 2 and separator [_], the preview computes [a_02.txt] and
    [b_03.txt]: the first item already receives start + increment. *)
Theorem C1_suffix_numbering_plan
        (re_sub : string -> string -> string -> result string) :
  let plan := FileTableModel.update_previews re_sub suffix_numbering_config
                (batch ["a.txt"; "b.txt"]) in
  snd plan = None /\
  map new_name (fst plan) = ["a_02.txt"; "b_03.txt"] /\
  map new_name (fst plan) <> ["a_01.txt"; "b_02.txt"].
Proof. split; [reflexivity|]. split; [reflexivity | discriminate]. Qed.

(** ** Exceptions of [process] *)

(** C5.  [process] is not total: when the replace stage runs
    case-insensitively, the replacement text is parsed as a template
    outside any [try], and the exception of the parser leaves [process].
    A replacement text that is one backslash raises [re.error] so. *)
Theorem C5_process_raises_on_bad_template
        (re_sub : string -> string -> string -> result string)
        (name : string) (config : RenameConfig) (index : Z) (e : exn) :
  regex_match config = "" ->
  replace_str config <> "" -> replace_case config = false ->
  Re.parse_template 0 (fun _ => None) (replace_with config) = Raises e ->
  RenamingEngine.process re_sub name config index = Raises e.
Proof.
  intros Hre Hstr Hcase Hparse.
  unfold RenamingEngine.process, RenamingEngine.stage_regex. rewrite Hre.
  simpl. unfold RenamingEngine.stage_replace, truthy.
  destruct (String.eqb_spec (replace_str config) ""); [contradiction|].
  simpl. rewrite Hcase. unfold Re.sub_literal_ignorecase.
  rewrite Hparse. reflexivity.
Qed.

Lemma C5_process_raises_on_bad_template_witness :
  regex_match backslash_replace_config = "" /\
  replace_str backslash_replace_config <> "" /\
  replace_case backslash_replace_config = false /\
  Re.parse_template 0 (fun _ => None) (replace_with backslash_replace_config)
    = Raises ReError /\
  RenamingEngine.process re_unused "a.txt" backslash_replace_config 1
    = Raises ReError.
Proof.
  split; [reflexivity|]. split; [discriminate|]. split; [reflexivity|].
  split; [reflexivity|].
  apply (C5_process_raises_on_bad_template re_unused "a.txt"
           backslash_replace_config 1 ReError eq_refl);
    [discriminate | reflexivity | reflexivity].
Defined.

(** ** Title case *)

Lemma length_title_from (b : bool) (s : string) :
  String.length (Py.title_from b s) = String.length s.
Proof.
  revert b; induction s as [|c s IH]; intros b; simpl;
    [reflexivity | now rewrite IH].
Qed.





(** ** The preview pass *)

Section PreviewFacts.

Variable re_sub : string -> string -> string -> result string.
Variable config : RenameConfig.

Lemma update_from_returns (files : list FileItem) :
  forall i : Z,
    (forall k item, nth_error files k = Some item ->
       exists n, RenamingEngine.process re_sub (original_name item) config
                   (i + Z.of_nat k + 1) = Returns n) ->
    exists files',
      FileTableModel.update_from re_sub i config files = (files', None) /\
      List.length files' = List.length files /\
      forall k item, nth_error files k = Some item ->
        exists n,
          RenamingEngine.process re_sub (original_name item) config
            (i + Z.of_nat k + 1) = Returns n /\
          nth_error files' k = Some (set_new_name item n).
Proof.
  induction files as [|item rest IH]; intros i Hall.
  - exists []. repeat split. intros [|k] it H; discriminate.
  - destruct (Hall O item eq_refl) as (n & Hn).
    replace (i + Z.of_nat 0 + 1) with (i + 1) in Hn by lia.
    destruct (IH (i + 1)) as (rest' & Hrest & Hlen & Hnth).
    { intros k it Hk. destruct (Hall (S k) it Hk) as (m & Hm).
      exists m. rewrite <- Hm. f_equal. lia. }
    exists (set_new_name item n :: rest'). simpl.
    rewrite Hn, Hrest. split; [reflexivity|]. split; [now rewrite Hlen|].
    intros [|k] it Hk; simpl in Hk.
    + injection Hk as <-. exists n. split; [|reflexivity].
      rewrite <- Hn. f_equal. lia.
    + destruct (Hnth k it Hk) as (m & Hm & Hk').
      exists m. split; [|exact Hk']. rewrite <- Hm. f_equal. lia.
Qed.

(** The pass rewrites new names only. *)
Lemma update_from_keeps (files : list FileItem) :
  forall (i : Z) (k : nat) (item' : FileItem),
    nth_error (fst (FileTableModel.update_from re_sub i config files)) k
      = Some item' ->
    exists item, nth_error files k = Some item /\
                 item' = set_new_name item (new_name item').
Proof.
  induction files as [|item rest IH]; intros i k item' Hk; simpl in Hk.
  - destruct k; discriminate.
  - destruct (RenamingEngine.process re_sub (original_name item) config (i + 1))
      as [n|e] eqn:Hn.
    + destruct (FileTableModel.update_from re_sub (i + 1) config rest)
        as [rest' e'] eqn:Hrest.
      destruct k as [|k]; simpl in Hk.
      * injection Hk as <-. exists item. split; reflexivity.
      * apply (IH (i + 1) k item'). now rewrite Hrest.
    + simpl in Hk. exists item'. split; [exact Hk|]. now destruct item'.
Qed.

End PreviewFacts.

(** C3, as amended.  When [process] returns for every item of the batch,
    the preview gives each item, at its 1-based position, the new name
    [process] of the original name, the configuration and that position;
    the first item receives the index 1.  Nothing else of an item changes:
    the status stays what it was, and no status Unchanged or Pending is
    computed. *)
Theorem C3_preview_new_names
        (re_sub : string -> string -> string -> result string)
        (config : RenameConfig) (files : list FileItem) :
  (forall k item, nth_error files k = Some item ->
     exists n, RenamingEngine.process re_sub (original_name item) config
                 (Z.of_nat k + 1) = Returns n) ->
  exists files',
    FileTableModel.update_previews re_sub config files = (files', None) /\
    List.length files' = List.length files /\
    forall k item, nth_error files k = Some item ->
      exists item',
        nth_error files' k = Some item' /\
        RenamingEngine.process re_sub (original_name item) config
          (Z.of_nat k + 1) = Returns (new_name item') /\
        original_name item' = original_name item /\
        path item' = path item /\
        status item' = status item.
Proof.
  intros Hall.
  destruct (update_from_returns re_sub config files 0 Hall)
    as (files' & Hrun & Hlen & Hnth).
  exists files'. split; [exact Hrun|]. split; [exact Hlen|].
  intros k item Hk. destruct (Hnth k item Hk) as (n & Hn & Hk').
  exists (set_new_name item n). simpl in *. repeat split; assumption.
Qed.

Lemma C3_preview_new_names_witness :
  exists files',
    FileTableModel.update_previews re_unused suffix_numbering_config
      (batch ["a.txt"]) = (files', None) /\
    map new_name files' = ["a_02.txt"] /\ map status files' = ["OK"].
Proof.
  assert (Hall : forall k item,
             nth_error (batch ["a.txt"]) k = Some item ->
             exists n, RenamingEngine.process re_unused (original_name item)
                         suffix_numbering_config (Z.of_nat k + 1) = Returns n).
  { intros [|[|k]] item Hk; simpl in Hk; try discriminate.
    injection Hk as <-. eexists. reflexivity. }
  destruct (C3_preview_new_names re_unused suffix_numbering_config
              (batch ["a.txt"]) Hall) as (files' & Hrun & _).
  exists files'. split; [exact Hrun|].
  vm_compute in Hrun. injection Hrun as <-. split; reflexivity.
Defined.

(** C3 as stated fails on the status: after the preview of [x.txt] and
    [b.txt] under the name fixed to [x], the second item has a new name
    that differs from its original name and its status is not Pending; it
    is [OK], as loaded. *)
Lemma C3_counterexample :
  exists item1 item2,
    FileTableModel.update_previews re_unused fixed_x_config
      (batch ["x.txt"; "b.txt"]) = ([item1; item2], None) /\
    new_name item1 = original_name item1 /\ status item1 <> "Unchanged" /\
    new_name item2 <> original_name item2 /\ status item2 <> "Pending" /\
    status item1 = "OK" /\ status item2 = "OK".
Proof.
  eexists. eexists. split; [reflexivity|].
  simpl. repeat split; try reflexivity; discriminate.
Qed.

(** ** Collisions *)

Lemma count_occ_two (l : list string) :
  forall (i j : nat) (x : string),
    i <> j -> nth_error l i = Some x -> nth_error l j = Some x ->
    (1 < count_occ string_dec l x)%nat.
Proof.
  induction l as [|a l IH]; intros i j x Hij Hi Hj.
  - destruct i; discriminate.
  - destruct i as [|i], j as [|j]; simpl in Hi, Hj.
    + contradiction.
    + injection Hi as ->. apply nth_error_In in Hj.
      apply (count_occ_In string_dec) in Hj.
      rewrite count_occ_cons_eq by reflexivity. lia.
    + injection Hj as ->. apply nth_error_In in Hi.
      apply (count_occ_In string_dec) in Hi.
      rewrite count_occ_cons_eq by reflexivity. lia.
    + assert (1 < count_occ string_dec l x)%nat
        by (apply (IH i j); [congruence | assumption | assumption]).
      simpl. destruct (string_dec a x); lia.
Qed.

(** The brush of the New Name column, for any table. *)
Lemma foreground_of_duplicate (files : list FileItem) (i j : nat)
      (item other : FileItem) :
  i <> j -> nth_error files i = Some item -> nth_error files j = Some other ->
  new_name item = new_name other ->
  FileTableModel.data_foreground files i 1
  = Returns (if String.eqb (new_name item) (original_name item)
             then None else Some FileTableModel.red).
Proof.
  intros Hij Hi Hj Hsame. unfold FileTableModel.data_foreground.
  rewrite Hi. simpl.
  destruct (String.eqb (new_name item) (original_name item)); [reflexivity|].
  simpl.
  assert (H : (1 < count_occ string_dec (map new_name files) (new_name item))%nat).
  { apply (count_occ_two _ i j); [assumption | |].
    - now apply map_nth_error.
    - rewrite Hsame. now apply map_nth_error. }
  apply Nat.ltb_lt in H. now rewrite H.
Qed.

(** C4, as amended.  After the preview, whenever two distinct items have
    the same new name, each of them whose new name differs from its
    original name is marked as a collision (the red brush of the New Name
    column); one whose new name is its original name gets no brush. *)
Theorem C4_collision_marking
        (re_sub : string -> string -> string -> result string)
        (config : RenameConfig) (files0 files : list FileItem)
        (e : option exn) (i j : nat) (item other : FileItem) :
  FileTableModel.update_previews re_sub config files0 = (files, e) ->
  i <> j -> nth_error files i = Some item -> nth_error files j = Some other ->
  new_name item = new_name other ->
  (new_name item <> original_name item ->
     FileTableModel.data_foreground files i 1 = Returns (Some FileTableModel.red)) /\
  (new_name item = original_name item ->
     FileTableModel.data_foreground files i 1 = Returns None).
Proof.
  intros _ Hij Hi Hj Hsame.
  rewrite (foreground_of_duplicate files i j item other Hij Hi Hj Hsame).
  split; intros H.
  - destruct (String.eqb_spec (new_name item) (original_name item));
      [contradiction | reflexivity].
  - rewrite H, String.eqb_refl. reflexivity.
Qed.

Lemma C4_collision_marking_witness :
  let plan := fst (FileTableModel.update_previews re_unused fixed_x_config
                     (batch ["foo.txt"; "bar.txt"])) in
  map new_name plan = ["x.txt"; "x.txt"] /\
  FileTableModel.data_foreground plan 0 1 = Returns (Some FileTableModel.red) /\
  FileTableModel.data_foreground plan 1 1 = Returns (Some FileTableModel.red).
Proof.
  split; [reflexivity|]. split.
  - refine (proj1 (C4_collision_marking re_unused fixed_x_config
                     (batch ["foo.txt"; "bar.txt"]) _ None 0 1 _ _
                     eq_refl _ eq_refl eq_refl eq_refl) _);
      discriminate.
  - refine (proj1 (C4_collision_marking re_unused fixed_x_config
                     (batch ["foo.txt"; "bar.txt"]) _ None 1 0 _ _
                     eq_refl _ eq_refl eq_refl eq_refl) _);
      discriminate.
Defined.

(** C4 as stated fails when a member of the duplicate group keeps its
    name: in the batch [x.txt], [foo.txt] under the name fixed to [x], both
    items compute [x.txt], the second is marked and the first is not. *)
Lemma C4_counterexample :
  let plan := fst (FileTableModel.update_previews re_unused fixed_x_config
                     (batch ["x.txt"; "foo.txt"])) in
  map new_name plan = ["x.txt"; "x.txt"] /\
  map status plan = ["OK"; "OK"] /\
  FileTableModel.data_foreground plan 0 1 = Returns None /\
  FileTableModel.data_foreground plan 0 1 <> Returns (Some FileTableModel.red) /\
  FileTableModel.data_foreground plan 1 1 = Returns (Some FileTableModel.red).
Proof. repeat split; try reflexivity. discriminate. Qed.

(** ** The rename loop *)

Section ExecuteFacts.

Variable World : Type.
Variable os_rename : World -> string -> string -> World * option string.
Variable parent : string -> string.
Variable joinpath : string -> string -> string.

Let rename_loop := MainWindow.rename_loop World os_rename parent joinpath.
Let attempts := MainWindow.attempts World os_rename parent joinpath.




End ExecuteFacts.

(** * Further properties of the engine *)

(** ** More on strings *)

Section MoreStringFacts.

Lemma len_append (s t : string) : Py.len (s ++ t) = Py.len s + Py.len t.
Proof. unfold Py.len. rewrite length_append. lia. Qed.

Lemma len_nonneg (s : string) : 0 <= Py.len s.
Proof. unfold Py.len. lia. Qed.

Lemma len_truthy (s : string) :
  Py.len (if truthy s then s else "") = Py.len s.
Proof. now destruct s. Qed.

Lemma length_drop (n : nat) (s : string) :
  String.length (Py.drop n s) = (String.length s - n)%nat.
Proof.
  revert s; induction n as [|n IH]; intros [|c s]; simpl; try reflexivity.
  apply IH.
Qed.

Lemma drop_all (n : nat) (s : string) :
  (String.length s <= n)%nat -> Py.drop n s = "".
Proof.
  revert s; induction n as [|n IH]; intros [|c s]; simpl; intros H;
    try reflexivity; try lia.
  apply IH. lia.
Qed.

Lemma len_slices (s : string) (i : Z) :
  Py.len (Py.slice_to s i) + Py.len (Py.slice_from s i) = Py.len s.
Proof. rewrite <- len_append, slice_to_from. reflexivity. Qed.

Lemma append_inv_head (s a b : string) : s ++ a = s ++ b -> a = b.
Proof.
  induction s as [|c s IH]; simpl; intros H; [exact H|].
  injection H as H. now apply IH.
Qed.

Lemma append_inv_same_length (a b s t : string) :
  String.length a = String.length b -> a ++ s = b ++ t -> a = b /\ s = t.
Proof.
  revert b; induction a as [|c a IH]; intros [|d b] Hlen H; simpl in *;
    try discriminate.
  - now split.
  - injection H as -> H. injection Hlen as Hlen.
    destruct (IH b Hlen H) as [-> ->]. now split.
Qed.

Lemma append_inv_tail (a b s : string) : a ++ s = b ++ s -> a = b.
Proof.
  intros H. apply (append_inv_same_length a b s s); [|exact H].
  apply (f_equal String.length) in H. rewrite !length_append in H. lia.
Qed.

Lemma reverse_append_char (s : string) (c : ascii) :
  Py.reverse (s ++ String c "") = String c (Py.reverse s).
Proof.
  induction s as [|a s IH]; simpl; [reflexivity|]. now rewrite IH.
Qed.

Lemma reverse_involutive (s : string) : Py.reverse (Py.reverse s) = s.
Proof.
  induction s as [|a s IH]; simpl; [reflexivity|].
  now rewrite reverse_append_char, IH.
Qed.

Lemma length_reverse (s : string) :
  String.length (Py.reverse s) = String.length s.
Proof.
  induction s as [|a s IH]; simpl; [reflexivity|].
  rewrite length_append, IH. simpl. lia.
Qed.

Lemma length_map_chars (f : ascii -> ascii) (s : string) :
  String.length (Py.map_chars f s) = String.length s.
Proof. induction s as [|a s IH]; simpl; [reflexivity | now rewrite IH]. Qed.

(** The case of one character, by its 256 values. *)
Ltac by_char c := destruct c as [[] [] [] [] [] [] [] []]; reflexivity.

Lemma lower_char_idempotent (c : ascii) :
  Py.lower_char (Py.lower_char c) = Py.lower_char c.
Proof. by_char c. Qed.

Lemma upper_char_idempotent (c : ascii) :
  Py.upper_char (Py.upper_char c) = Py.upper_char c.
Proof. by_char c. Qed.

Lemma is_cased_lower_char (c : ascii) :
  Py.is_cased (Py.lower_char c) = Py.is_cased c.
Proof. by_char c. Qed.

Lemma is_cased_upper_char (c : ascii) :
  Py.is_cased (Py.upper_char c) = Py.is_cased c.
Proof. by_char c. Qed.

Lemma map_chars_idempotent (f : ascii -> ascii) (s : string) :
  (forall c, f (f c) = f c) ->
  Py.map_chars f (Py.map_chars f s) = Py.map_chars f s.
Proof.
  intros Hf. induction s as [|a s IH]; simpl; [reflexivity|].
  now rewrite Hf, IH.
Qed.

Lemma title_from_idempotent (s : string) :
  forall b, Py.title_from b (Py.title_from b s) = Py.title_from b s.
Proof.
  induction s as [|a s IH]; intros b; simpl; [reflexivity|].
  destruct b.
  - now rewrite lower_char_idempotent, is_cased_lower_char, IH.
  - now rewrite upper_char_idempotent, is_cased_upper_char, IH.
Qed.

Lemma mem_delete_chars (chars s : string) (c : ascii) :
  Py.mem c chars = true -> Py.mem c (Py.delete_chars chars s) = false.
Proof.
  intros Hc. induction s as [|a s IH]; simpl; [reflexivity|].
  destruct (Py.mem a chars) eqn:Ha; [exact IH|].
  simpl. rewrite IH, orb_false_r.
  destruct (Ascii.eqb_spec a c) as [->|]; [congruence | reflexivity].
Qed.

Lemma delete_chars_absent (chars s : string) :
  (forall c, Py.mem c s = true -> Py.mem c chars = false) ->
  Py.delete_chars chars s = s.
Proof.
  induction s as [|a s IH]; simpl; intros H; [reflexivity|].
  rewrite (H a) by now rewrite Ascii.eqb_refl.
  rewrite IH; [reflexivity|].
  intros c Hc. apply H. rewrite Hc. apply orb_true_r.
Qed.

Lemma length_delete_chars (chars s : string) :
  (String.length (Py.delete_chars chars s) <= String.length s)%nat.
Proof.
  induction s as [|a s IH]; simpl; [lia|].
  destruct (Py.mem a chars); simpl; lia.
Qed.

End MoreStringFacts.

(** ** The stages, one by one *)

(** X1.  The name mode Reverse undoes itself: applied twice it gives the
    stem back, and it keeps the length. *)
Theorem X_reverse_twice (config : RenameConfig) (stem : string) :
  name_mode config = "Reverse" ->
  RenamingEngine.stage_name config (RenamingEngine.stage_name config stem) = stem /\
  Py.len (RenamingEngine.stage_name config stem) = Py.len stem.
Proof.
  intros Hmode. unfold RenamingEngine.stage_name. rewrite Hmode. simpl.
  split; [apply reverse_involutive|].
  unfold Py.len. now rewrite length_reverse.
Qed.

(** X2.  On a stem of ASCII characters the case stage is idempotent in
    every mode, and keeps the length of the stem. *)
Theorem X_case_idempotent (config : RenameConfig) (stem : string) :
  ascii_text stem ->
  RenamingEngine.stage_case config (RenamingEngine.stage_case config stem)
  = RenamingEngine.stage_case config stem /\
  Py.len (RenamingEngine.stage_case config stem) = Py.len stem.
Proof.
  intros _.
  unfold RenamingEngine.stage_case, Py.len, Py.lower, Py.upper, Py.title.
  destruct (String.eqb (case_mode config) "Lower");
    [split; [apply map_chars_idempotent, lower_char_idempotent
            | now rewrite length_map_chars]|].
  destruct (String.eqb (case_mode config) "Upper");
    [split; [apply map_chars_idempotent, upper_char_idempotent
            | now rewrite length_map_chars]|].
  destruct (String.eqb (case_mode config) "Title");
    [split; [apply title_from_idempotent
            | now rewrite length_title_from]|].
  split; reflexivity.
Qed.

Lemma X_case_idempotent_witness :
  ascii_text "my-fILE name" /\
  RenamingEngine.stage_case title_config
    (RenamingEngine.stage_case title_config "my-fILE name")
  = RenamingEngine.stage_case title_config "my-fILE name".
Proof.
  split; [reflexivity|].
  exact (proj1 (X_case_idempotent title_config "my-fILE name" eq_refl)).
Defined.

(** X3.  After the removal of characters, no character of the set is left
    in the stem; a stem that holds none of them is unchanged; the stem
    never grows. *)
Theorem X_remove_characters (config : RenameConfig) (stem : string) :
  (forall c, Py.mem c (remove_chars config) = true ->
     Py.mem c (RenamingEngine.remove_characters config stem) = false) /\
  ((forall c, Py.mem c stem = true -> Py.mem c (remove_chars config) = false) ->
     RenamingEngine.remove_characters config stem = stem) /\
  Py.len (RenamingEngine.remove_characters config stem) <= Py.len stem.
Proof.
  unfold RenamingEngine.remove_characters, truthy.
  destruct (String.eqb_spec (remove_chars config) "") as [Hempty|Hne]; simpl.
  - rewrite Hempty. split; [discriminate|]. split; [reflexivity | lia].
  - split; [intros c; apply mem_delete_chars|].
    split; [apply delete_chars_absent|].
    unfold Py.len. pose proof (length_delete_chars (remove_chars config) stem). lia.
Qed.

Lemma X_remove_characters_witness :
  Py.mem "b" (remove_chars
                (Ui.update_config_from_ui busy_widgets)) = false /\
  Py.mem "y" (remove_chars (Ui.update_config_from_ui busy_widgets)) = true /\
  Py.mem "y" (RenamingEngine.remove_characters
                (Ui.update_config_from_ui busy_widgets) "xylo-yz") = false.
Proof.
  split; [reflexivity|]. split; [reflexivity|].
  apply (proj1 (X_remove_characters (Ui.update_config_from_ui busy_widgets)
                  "xylo-yz")).
  reflexivity.
Defined.

(** X4.  The add stage only adds: the length of its result is the length
    of the stem plus the lengths of the prefix, of the suffix and of the
    inserted text, for every insert position, negative or beyond the end. *)
Theorem X_add_length (config : RenameConfig) (stem : string) :
  Py.len (RenamingEngine.stage_add config stem)
  = Py.len stem + Py.len (add_prefix config) + Py.len (add_suffix config)
    + Py.len (add_insert config).
Proof.
  unfold RenamingEngine.stage_add.
  set (s1 := if truthy (add_prefix config) then add_prefix config ++ stem else stem).
  set (s2 := if truthy (add_suffix config) then s1 ++ add_suffix config else s1).
  assert (H1 : Py.len s1 = Py.len (add_prefix config) + Py.len stem).
  { unfold s1. destruct (add_prefix config) as [|a p];
      [reflexivity | apply len_append]. }
  assert (H2 : Py.len s2 = Py.len s1 + Py.len (add_suffix config)).
  { unfold s2. destruct (add_suffix config) as [|a p].
    - change (truthy "") with false. change (Py.len "") with 0. cbv iota. lia.
    - apply len_append. }
  destruct (add_insert config) as [|c ins] eqn:Hins.
  - change (truthy "") with false. change (Py.len "") with 0. cbv iota. lia.
  - change (truthy (String c ins)) with true. cbv iota.
    destruct (Z.leb_spec (Py.len s2) (add_at_pos config)).
    + rewrite len_append. lia.
    + rewrite !len_append. pose proof (len_slices s2 (add_at_pos config)). lia.
Qed.

(** X5.  Removing the first [n] characters, [n > 0], leaves what follows
    them, and nothing when the stem has at most [n] characters.  Removing
    the last [n] leaves what precedes them only when the stem has more than
    [n] characters; a stem of at most [n] characters is left whole. *)
Theorem X_remove_first_last (config : RenameConfig) (stem : string) :
  (0 < remove_first config ->
     RenamingEngine.remove_first_n config stem
       = Py.drop (Z.to_nat (remove_first config)) stem /\
     Py.len (RenamingEngine.remove_first_n config stem)
       = Z.max 0 (Py.len stem - remove_first config)) /\
  (0 < remove_last config -> remove_last config < Py.len stem ->
     RenamingEngine.remove_last_n config stem
       = Py.take (Z.to_nat (Py.len stem - remove_last config)) stem /\
     Py.len (RenamingEngine.remove_last_n config stem)
       = Py.len stem - remove_last config) /\
  (Py.len stem <= remove_last config ->
     RenamingEngine.remove_last_n config stem = stem).
Proof.
  unfold RenamingEngine.remove_first_n, RenamingEngine.remove_last_n.
  split; [|split].
  - intros Hn. destruct (Z.ltb_spec 0 (remove_first config)); [|lia].
    unfold Py.slice_from, Py.slice_index.
    destruct (Z.ltb_spec (remove_first config) 0); [lia|].
    rewrite drop_min. split; [reflexivity|].
    unfold Py.len. rewrite length_drop. lia.
  - intros Hn Hlen.
    destruct (Z.ltb_spec 0 (remove_last config)); [|lia].
    destruct (Z.ltb_spec (remove_last config) (Py.len stem)); [|lia].
    simpl andb. cbv iota.
    unfold Py.slice_to, Py.slice_index.
    destruct (Z.ltb_spec (- remove_last config) 0); [|lia].
    unfold Py.len in *.
    replace (Z.max 0 (Z.of_nat (String.length stem) + - remove_last config))
      with (Z.of_nat (String.length stem) - remove_last config) by lia.
    split; [reflexivity|]. rewrite length_take. lia.
  - intros Hlen.
    destruct (Z.ltb_spec (remove_last config) (Py.len stem)); [lia|].
    now rewrite andb_false_r.
Qed.

Lemma X_remove_first_last_witness :
  let c := Ui.update_config_from_ui busy_widgets in
  0 < remove_first c /\ 0 < remove_last c /\ remove_last c < Py.len "abcdef" /\
  Py.len "ab" <= remove_last c /\
  RenamingEngine.remove_first_n c "abcdef" = "bcdef" /\
  RenamingEngine.remove_last_n c "abcdef" = "abcd" /\
  RenamingEngine.remove_last_n c "ab" = "ab".
Proof.
  intros c.
  assert (H1 : 0 < remove_first c) by reflexivity.
  assert (H2 : 0 < remove_last c) by reflexivity.
  assert (H3 : remove_last c < Py.len "abcdef") by reflexivity.
  assert (H4 : Py.len "ab" <= remove_last c) by (vm_compute; discriminate).
  repeat (split; [assumption|]).
  split; [exact (proj1 (proj1 (X_remove_first_last c "abcdef") H1))|].
  split; [exact (proj1 (proj1 (proj2 (X_remove_first_last c "abcdef")) H2 H3))|].
  exact (proj2 (proj2 (X_remove_first_last c "ab")) H4).
Defined.

Lemma X_reverse_twice_witness :
  let c := Ui.update_config_from_ui busy_widgets in
  name_mode c = "Reverse" /\
  RenamingEngine.stage_name c "abc" = "cba" /\
  RenamingEngine.stage_name c (RenamingEngine.stage_name c "abc") = "abc".
Proof.
  intros c. split; [reflexivity|]. split; [reflexivity|].
  exact (proj1 (X_reverse_twice c "abc" eq_refl)).
Defined.

(** ** The range of the remove stage *)

(** The two slices of the range step, when the step applies. *)
Lemma remove_range_slices (config : RenameConfig) (stem : string) :
  0 < remove_from config \/ 0 < remove_to config ->
  remove_from config <= Py.len stem -> 0 < Py.len stem ->
  RenamingEngine.remove_range config stem
  = Py.take (Z.to_nat (remove_from config - 1)) stem
      ++ Py.drop (if 0 <? remove_to config
                  then Z.to_nat (remove_to config)
                  else String.length stem) stem.
Proof.
  intros Hset Hfrom Hlen. unfold RenamingEngine.remove_range.
  assert (Hguard : (0 <? remove_from config) || (0 <? remove_to config) = true).
  { apply orb_true_iff. destruct Hset; [left | right]; now apply Z.ltb_lt. }
  rewrite Hguard.
  destruct (Z.ltb_spec (Z.max 0 (remove_from config - 1)) (Py.len stem)); [|lia].
  unfold Py.slice_to, Py.slice_from.
  rewrite slice_index_inside by (unfold Py.len in *; lia).
  replace (Z.to_nat (Z.max 0 (remove_from config - 1)))
    with (Z.to_nat (remove_from config - 1)) by lia.
  f_equal. destruct (Z.ltb_spec 0 (remove_to config)).
  - unfold Py.slice_index. destruct (Z.ltb_spec (remove_to config) 0); [lia|].
    apply drop_min.
  - rewrite slice_index_beyond by (unfold Py.len; lia). reflexivity.
Qed.

(** X6.  A range [from..to] that lies in order, [1 <= from <= to], with
    [from] inside the stem, removes the characters at the 1-based positions
    [from] to [to]: what precedes [from] and what follows [to] remain, and
    the stem loses [min(to, len) - from + 1] characters. *)
Theorem X_remove_range_in_order (config : RenameConfig) (stem : string) :
  0 < remove_from config -> remove_from config <= remove_to config ->
  remove_from config <= Py.len stem ->
  RenamingEngine.remove_range config stem
    = Py.take (Z.to_nat (remove_from config - 1)) stem
        ++ Py.drop (Z.to_nat (remove_to config)) stem /\
  Py.len (RenamingEngine.remove_range config stem)
    = Py.len stem
      - (Z.min (remove_to config) (Py.len stem) - remove_from config + 1).
Proof.
  intros Hfrom Hto Hlen.
  rewrite remove_range_slices by lia.
  destruct (Z.ltb_spec 0 (remove_to config)); [|lia].
  split; [reflexivity|].
  rewrite len_append. unfold Py.len in *. rewrite length_take, length_drop. lia.
Qed.

Lemma X_remove_range_in_order_witness :
  let c := Ui.update_config_from_ui busy_widgets in
  0 < remove_from c /\ remove_from c <= remove_to c /\
  remove_from c <= Py.len "abcdef" /\
  RenamingEngine.remove_range c "abcdef" = "abef".
Proof.
  intros c.
  assert (H1 : 0 < remove_from c) by reflexivity.
  assert (H2 : remove_from c <= remove_to c) by (vm_compute; discriminate).
  assert (H3 : remove_from c <= Py.len "abcdef") by (vm_compute; discriminate).
  repeat (split; [assumption|]).
  exact (proj1 (X_remove_range_in_order c "abcdef" H1 H2 H3)).
Defined.

(** X7.  A range whose end lies before its start, [0 < to < from - 1],
    removes nothing and repeats the characters between [to] and [from]: the
    result is the stem up to [from - 1] followed by the stem after [to],
    longer than the stem by [from - 1 - to]. *)
Theorem X_remove_range_reversed (config : RenameConfig) (stem : string) :
  0 < remove_to config -> remove_to config < remove_from config - 1 ->
  remove_from config <= Py.len stem ->
  RenamingEngine.remove_range config stem
    = Py.take (Z.to_nat (remove_from config - 1)) stem
        ++ Py.drop (Z.to_nat (remove_to config)) stem /\
  Py.len (RenamingEngine.remove_range config stem)
    = Py.len stem + (remove_from config - 1 - remove_to config).
Proof.
  intros Hto Hrev Hlen.
  rewrite remove_range_slices by lia.
  destruct (Z.ltb_spec 0 (remove_to config)); [|lia].
  split; [reflexivity|].
  rewrite len_append. unfold Py.len in *. rewrite length_take, length_drop. lia.
Qed.

Lemma X_remove_range_reversed_witness :
  0 < remove_to (range_config 5 2) /\
  remove_to (range_config 5 2) < remove_from (range_config 5 2) - 1 /\
  remove_from (range_config 5 2) <= Py.len "abcdef" /\
  RenamingEngine.remove_range (range_config 5 2) "abcdef" = "abcdcdef".
Proof.
  assert (H1 : 0 < remove_to (range_config 5 2)) by reflexivity.
  assert (H2 : remove_to (range_config 5 2) < remove_from (range_config 5 2) - 1)
    by reflexivity.
  assert (H3 : remove_from (range_config 5 2) <= Py.len "abcdef")
    by (vm_compute; discriminate).
  repeat (split; [assumption|]).
  exact (proj1 (X_remove_range_reversed (range_config 5 2) "abcdef" H1 H2 H3)).
Defined.

(** X8.  A range with a start and no end removes everything from the
    start on; a range whose start lies beyond the stem removes nothing,
    whatever its end. *)
Theorem X_remove_range_open (config : RenameConfig) (stem : string) :
  0 < remove_from config ->
  (remove_to config <= 0 -> remove_from config <= Py.len stem ->
     RenamingEngine.remove_range config stem
       = Py.take (Z.to_nat (remove_from config - 1)) stem) /\
  (Py.len stem < remove_from config ->
     RenamingEngine.remove_range config stem = stem).
Proof.
  intros Hfrom. split.
  - intros Hto Hlen. rewrite remove_range_slices by lia.
    destruct (Z.ltb_spec 0 (remove_to config)); [lia|].
    rewrite drop_all by lia. apply append_empty_r.
  - intros Hlen. unfold RenamingEngine.remove_range.
    destruct (Z.ltb_spec (Z.max 0 (remove_from config - 1)) (Py.len stem)); [lia|].
    now destruct ((0 <? remove_from config) || (0 <? remove_to config)).
Qed.

Lemma X_remove_range_open_witness :
  0 < remove_from (range_config 3 0) /\ remove_to (range_config 3 0) <= 0 /\
  remove_from (range_config 3 0) <= Py.len "abcdef" /\
  Py.len "ab" < remove_from (range_config 3 0) /\
  RenamingEngine.remove_range (range_config 3 0) "abcdef" = "ab" /\
  RenamingEngine.remove_range (range_config 3 0) "ab" = "ab".
Proof.
  assert (H1 : 0 < remove_from (range_config 3 0)) by reflexivity.
  assert (H2 : remove_to (range_config 3 0) <= 0) by (vm_compute; discriminate).
  assert (H3 : remove_from (range_config 3 0) <= Py.len "abcdef")
    by (vm_compute; discriminate).
  assert (H4 : Py.len "ab" < remove_from (range_config 3 0)) by reflexivity.
  repeat (split; [assumption|]).
  split.
  - exact (proj1 (X_remove_range_open (range_config 3 0) "abcdef" H1) H2 H3).
  - exact (proj2 (X_remove_range_open (range_config 3 0) "ab" H1) H4).
Defined.

(** ** Numbering and the extension *)

(** The text of the number determines the number. *)
Lemma num_str_injective (config : RenameConfig) (i j : Z) :
  RenamingEngine.num_str config i = RenamingEngine.num_str config j ->
  RenamingEngine.num_val config i = RenamingEngine.num_val config j.
Proof.
  unfold RenamingEngine.num_str. intros H.
  destruct (zfill_str_of_int (RenamingEngine.num_val config i) (num_pad config))
    as (_ & _ & _ & Hi).
  destruct (zfill_str_of_int (RenamingEngine.num_val config j) (num_pad config))
    as (_ & _ & _ & Hj).
  rewrite H in Hi. rewrite Hi in Hj. now injection Hj.
Qed.

(** X9.  With a non-zero increment, in the modes Prefix, Suffix and
    Insert, two different indexes never give the same stem: the numbered
    stems of one stem are pairwise distinct. *)
Theorem X_numbering_distinct (config : RenameConfig) (stem : string) (i j : Z) :
  num_incr config <> 0 ->
  num_mode config = "Prefix" \/ num_mode config = "Suffix"
    \/ num_mode config = "Insert" ->
  RenamingEngine.stage_numbering config i stem
    = RenamingEngine.stage_numbering config j stem ->
  i = j.
Proof.
  intros Hincr Hmode Heq.
  assert (Hval : RenamingEngine.num_val config i = RenamingEngine.num_val config j).
  { apply num_str_injective.
    unfold RenamingEngine.stage_numbering, RenamingEngine.full_num_str in Heq.
    destruct Hmode as [Hm | [Hm | Hm]]; rewrite Hm in Heq; simpl in Heq.
    - apply append_inv_tail in Heq. now apply append_inv_tail in Heq.
    - apply append_inv_head in Heq. now apply append_inv_head in Heq.
    - apply append_inv_head in Heq. apply append_inv_tail in Heq.
      now apply append_inv_tail in Heq. }
  unfold RenamingEngine.num_val in Hval.
  apply (Z.mul_reg_r _ _ (num_incr config)); [assumption | lia].
Qed.

Lemma X_numbering_distinct_witness :
  num_incr suffix_numbering_config <> 0 /\
  num_mode suffix_numbering_config = "Suffix" /\
  RenamingEngine.stage_numbering suffix_numbering_config 3 "a"
    = RenamingEngine.stage_numbering suffix_numbering_config (1 + 2) "a" /\
  3 = 1 + 2.
Proof.
  assert (H : num_incr suffix_numbering_config <> 0) by discriminate.
  split; [exact H|]. split; [reflexivity|]. split; [reflexivity|].
  apply (X_numbering_distinct suffix_numbering_config "a" 3 (1 + 2) H);
    [right; left|]; reflexivity.
Defined.

(** X10.  In the mode Fixed the extension stage gives the fixed text with
    exactly one leading dot supplied when it has none: the result always
    begins with a dot, and does not depend on the extension of the name. *)
Theorem X_extension_fixed (config : RenameConfig) (ext : string) :
  ext_mode config = "Fixed" ->
  Py.startswith (RenamingEngine.stage_extension config ext) "." = true /\
  (Py.startswith (ext_fixed config) "." = true ->
     RenamingEngine.stage_extension config ext = ext_fixed config) /\
  (Py.startswith (ext_fixed config) "." = false ->
     RenamingEngine.stage_extension config ext = "." ++ ext_fixed config).
Proof.
  intros Hmode. unfold RenamingEngine.stage_extension. rewrite Hmode. simpl.
  destruct (Py.startswith (ext_fixed config) ".") eqn:Hdot; simpl.
  - split; [exact Hdot|]. split; [reflexivity | discriminate].
  - split; [|split; [discriminate | reflexivity]].
    unfold Py.startswith. simpl.
    destruct (ascii_dec "." "."); [|contradiction].
    now destruct (ext_fixed config).
Qed.

Lemma X_extension_fixed_witness :
  let c := Ui.update_config_from_ui busy_widgets in
  ext_mode c = "Fixed" /\ Py.startswith (ext_fixed c) "." = false /\
  RenamingEngine.stage_extension c ".txt" = ".bak".
Proof.
  intros c. split; [reflexivity|]. split; [reflexivity|].
  exact (proj2 (proj2 (X_extension_fixed c ".txt" eq_refl)) eq_refl).
Defined.

(** ** The regex stage and the replace stage *)

Section SearchFacts.

Lemma scan_ext (here : string -> bool) (w : nat) (emit1 emit2 : string -> string) :
  (forall m, emit1 m = emit2 m) ->
  forall s k, Py.scan here w emit1 k s = Py.scan here w emit2 k s.
Proof.
  intros Hemit. induction s as [|c s IH]; intros k; simpl; [reflexivity|].
  destruct k as [|k]; [|apply IH].
  destruct (here (String c s)); now rewrite ?Hemit, IH.
Qed.

Lemma scan_absent (here : string -> bool) (w : nat) (emit : string -> string) :
  forall s, (forall k, here (Py.drop k s) = false) ->
            Py.scan here w emit 0 s = s.
Proof.
  induction s as [|c s IH]; intros Habs; simpl; [reflexivity|].
  rewrite (Habs O : here (String c s) = false). f_equal. apply IH.
  intros k. exact (Habs (S k)).
Qed.

Lemma scan_skip_all (here : string -> bool) (w : nat) (emit : string -> string) :
  forall s k, (String.length s <= k)%nat -> Py.scan here w emit k s = "".
Proof.
  induction s as [|c s IH]; intros k Hk; simpl in *; [reflexivity|].
  destruct k as [|k]; [lia|]. apply IH. lia.
Qed.

(** The tokens of a text without a backslash are its characters. *)
Lemma parse_plain (groups : nat) (groupindex : string -> option nat) (s : string) :
  Py.mem "\" s = false ->
  Re.next_ok (Re.tokenize s) = true /\
  exists t, Re.parse groups groupindex Re.Normal (Re.tokenize s) = Returns t /\
            forall group, Re.expand group t = s.
Proof.
  induction s as [|c s IH]; simpl; intros Hmem.
  - split; [reflexivity|]. exists []. split; reflexivity.
  - apply orb_false_iff in Hmem as [Hc Hs].
    destruct (IH Hs) as (Hok & t & Ht & Hexp).
    rewrite Hc. split; [reflexivity|]. simpl. rewrite Hok, Ht. simpl.
    eexists. split; [reflexivity|]. intros group. simpl. now rewrite Hexp.
Qed.

Lemma sub_plain (old repl s : string) :
  Py.mem "\" repl = false ->
  Re.sub_literal_ignorecase old repl s
  = Returns (Py.scan (Re.prefix_ignorecase old) (String.length old)
                     (fun _ => repl) 0 s).
Proof.
  intros Hplain. unfold Re.sub_literal_ignorecase, Re.parse_template.
  destruct (parse_plain 0 (fun _ => None) repl Hplain) as (Hok & t & Ht & Hexp).
  rewrite Hok, Ht. simpl. f_equal. apply scan_ext. intros m. apply Hexp.
Qed.

Lemma prefix_cons (x a : ascii) (p s : string) :
  String.prefix (String x p) (String a s) = Ascii.eqb x a && String.prefix p s.
Proof.
  change (String.prefix (String x p) (String a s))
    with (if ascii_dec x a then String.prefix p s else false).
  destruct (ascii_dec x a) as [->|Hne].
  - now rewrite Ascii.eqb_refl.
  - destruct (Ascii.eqb_spec x a); [contradiction | reflexivity].
Qed.

Lemma prefix_empty (s : string) : String.prefix "" s = true.
Proof. now destruct s. Qed.

(** Whether the text opens with a backslash and a star. *)
Lemma prefix_backslash_star (a : ascii) (s : string) :
  String.prefix "\*" (String a s)
  = Ascii.eqb "\" a
    && match s with
       | "" => false
       | String b _ => Ascii.eqb "*" b
       end.
Proof.
  rewrite prefix_cons. f_equal. destruct s as [|b r]; [reflexivity|].
  now rewrite prefix_cons, prefix_empty, andb_true_r.
Qed.

Lemma escape_first (p : string) :
  match Re.escape p with
  | "" => False
  | String a _ => Ascii.eqb "*" a = true
  end -> False.
Proof.
  destruct p as [|c p]; cbn [Re.escape]; [tauto|].
  destruct (Py.mem c Re.special_chars) eqn:Hc;
    [intros H; vm_compute in H; discriminate H|].
  intros H. apply Ascii.eqb_eq in H. subst c.
  vm_compute in Hc. discriminate Hc.
Qed.

Lemma scan_escape (p : string) :
  Py.scan (String.prefix "\*") 2 (fun _ => ".*") 0 (Re.escape p)
  = wildcard_pattern p.
Proof.
  induction p as [|c p IH]; [reflexivity|].
  cbn [Re.escape wildcard_pattern].
  pose proof (escape_first p) as Hfirst.
  destruct (Ascii.eqb_spec c "*") as [->|Hstar].
  - change (Py.mem "*" Re.special_chars) with true. cbv iota.
    cbn [Py.scan Nat.sub]. rewrite prefix_backslash_star.
    simpl andb. cbv iota. cbv beta. now rewrite IH.
  - assert (Hc : Ascii.eqb "*" c = false).
    { destruct (Ascii.eqb_spec "*" c); [congruence | reflexivity]. }
    destruct (Py.mem c Re.special_chars) eqn:Hspecial.
    + cbn [Py.scan]. rewrite prefix_backslash_star, Hc, andb_false_r.
      f_equal. rewrite prefix_backslash_star.
      assert (Hnext : match Re.escape p with
                      | "" => false
                      | String b _ => Ascii.eqb "*" b
                      end = false).
      { destruct (Re.escape p) as [|b r]; [reflexivity|].
        destruct (Ascii.eqb "*" b); [now destruct Hfirst | reflexivity]. }
      rewrite Hnext, andb_false_r. now rewrite IH.
    + assert (Hback : Ascii.eqb "\" c = false).
      { destruct (Ascii.eqb_spec "\" c) as [<-|]; [discriminate | reflexivity]. }
      cbn [Py.scan]. rewrite prefix_backslash_star, Hback. simpl andb.
      cbv iota. now rewrite IH.
Qed.

End SearchFacts.

(** X11.  In the simple mode the pattern handed to [re.sub] is the text
    of the match field read character by character: each star becomes
    [.*], each special character is quoted with a backslash, and every
    other character stands for itself. *)
Theorem X_simple_pattern
        (re_sub : string -> string -> string -> result string)
        (config : RenameConfig) (stem : string) :
  regex_simple config = true ->
  regex_pattern config = wildcard_pattern (regex_match config) /\
  (regex_match config <> "" ->
   RenamingEngine.stage_regex re_sub config stem
   = except_re_error
       (re_sub (wildcard_pattern (regex_match config)) (regex_replace config) stem)
       stem).
Proof.
  intros Hsimple.
  assert (Hpattern : regex_pattern config = wildcard_pattern (regex_match config)).
  { unfold regex_pattern. rewrite Hsimple. unfold Py.replace. apply scan_escape. }
  split; [exact Hpattern|].
  intros Hset. unfold RenamingEngine.stage_regex, truthy.
  destruct (String.eqb_spec (regex_match config) ""); [contradiction|].
  simpl negb. cbv iota. fold (regex_pattern config). now rewrite Hpattern.
Qed.

Lemma X_simple_pattern_witness :
  regex_simple (search_config "a.b*\c" true "" "" false) = true /\
  regex_match (search_config "a.b*\c" true "" "" false) <> "" /\
  regex_pattern (search_config "a.b*\c" true "" "" false) = "a\.b.*\\c" /\
  RenamingEngine.stage_regex re_fails_on_a
    (search_config "a.b*\c" true "" "" false) "stem" = Returns "stem".
Proof.
  assert (H : regex_match (search_config "a.b*\c" true "" "" false) <> "")
    by discriminate.
  split; [reflexivity|]. split; [exact H|]. split.
  - exact (proj1 (X_simple_pattern re_fails_on_a
                    (search_config "a.b*\c" true "" "" false) "stem" eq_refl)).
  - rewrite (proj2 (X_simple_pattern re_fails_on_a
                      (search_config "a.b*\c" true "" "" false) "stem" eq_refl) H).
    reflexivity.
Defined.

(** X12.  A pattern the regex library rejects with [re.error] is ignored:
    [process] gives what it gives with the regex stage switched off.  Any
    other exception of the library leaves [process]. *)
Theorem X_rejected_pattern_is_ignored
        (re_sub : string -> string -> string -> result string)
        (name : string) (config : RenameConfig) (index : Z) (e : exn) :
  regex_match config <> "" ->
  re_sub (regex_pattern config) (regex_replace config) (Pathlib.stem name)
    = Raises e ->
  (e = ReError ->
     RenamingEngine.process re_sub name config index
     = RenamingEngine.process re_sub name (without_regex config) index) /\
  (e <> ReError ->
     RenamingEngine.process re_sub name config index = Raises e).
Proof.
  intros Hset Hraise.
  unfold RenamingEngine.process, RenamingEngine.stage_regex, truthy.
  destruct (String.eqb_spec (regex_match config) ""); [contradiction|].
  simpl negb. cbv iota. fold (regex_pattern config). rewrite Hraise.
  split.
  - intros ->. reflexivity.
  - intros He. destruct e; [contradiction | reflexivity | reflexivity].
Qed.

Lemma X_rejected_pattern_is_ignored_witness :
  regex_match (search_config "(" false "" "" false) <> "" /\
  re_rejects (regex_pattern (search_config "(" false "" "" false))
    (regex_replace (search_config "(" false "" "" false))
    (Pathlib.stem "a.txt") = Raises ReError /\
  RenamingEngine.process re_rejects "a.txt"
    (search_config "(" false "" "" false) 1 = Returns "a.txt".
Proof.
  assert (H : regex_match (search_config "(" false "" "" false) <> "")
    by discriminate.
  split; [exact H|]. split; [reflexivity|].
  exact (proj1 (X_rejected_pattern_is_ignored re_rejects "a.txt"
                  (search_config "(" false "" "" false) 1 ReError H eq_refl)
           eq_refl).
Defined.

Section OccurrenceFacts.

Variable here : string -> bool.
Variable w : nat.
Variable new : string.

Lemma scan_skip :
  forall s k,
    Py.scan here w (fun _ => new) k s
    = Py.scan here w (fun _ => new) 0 (Py.drop k s).
Proof.
  induction s as [|c s IH]; intros k.
  - now destruct k.
  - destruct k as [|k]; [reflexivity|]. simpl. apply IH.
Qed.

Lemma scan_at_occurrence (s : string) :
  (0 < w)%nat -> s <> "" -> here s = true ->
  Py.scan here w (fun _ => new) 0 s
  = new ++ Py.scan here w (fun _ => new) 0 (Py.drop w s).
Proof.
  intros Hw Hne Hhere. destruct s as [|c s]; [contradiction|].
  cbn [Py.scan]. rewrite Hhere, scan_skip.
  destruct w as [|w']; [lia|]. simpl. now rewrite Nat.sub_0_r.
Qed.

(** The pass over the stem finds every occurrence, from left to right. *)
Lemma scan_replaces_all :
  (0 < w)%nat ->
  forall n s, (String.length s <= n)%nat ->
              replaced_all here w new s (Py.scan here w (fun _ => new) 0 s).
Proof.
  intros Hw. induction n as [|n IH]; intros s Hlen.
  - destruct s; [constructor | simpl in Hlen; lia].
  - destruct s as [|c s]; [constructor|].
    destruct (here (String c s)) eqn:Hhere.
    + rewrite scan_at_occurrence by (assumption || discriminate).
      apply replaced_here; [discriminate | assumption|].
      apply IH. rewrite length_drop. cbn [String.length] in *. lia.
    + cbn [Py.scan]. rewrite Hhere. apply replaced_next; [assumption|].
      apply IH. simpl in Hlen. lia.
Qed.

End OccurrenceFacts.

Lemma scan_same_test (here1 here2 : string -> bool) (w : nat)
      (emit : string -> string) :
  (forall s, here1 s = here2 s) ->
  forall s k, Py.scan here1 w emit k s = Py.scan here2 w emit k s.
Proof.
  intros Hsame. induction s as [|c s IH]; intros k; simpl; [reflexivity|].
  destruct k as [|k]; [|apply IH].
  rewrite Hsame. destruct (here2 (String c s)); now rewrite IH.
Qed.

(** The test of the case-insensitive search, in words of [lower]. *)
Lemma prefix_ignorecase_opens (old : string) :
  forall s, Re.prefix_ignorecase old s = opens_ignoring_case old s.
Proof.
  unfold opens_ignoring_case, Py.lower.
  induction old as [|a old IH]; intros s; [reflexivity|].
  destruct s as [|b s]; [reflexivity|].
  simpl. now rewrite IH.
Qed.

Lemma never_occurs (here : string -> bool) (s : string) :
  here "" = false ->
  (forall k, ~ occurs_at here s k) ->
  forall k, here (Py.drop k s) = false.
Proof.
  intros Hempty Hnone k.
  destruct (Nat.lt_ge_cases k (String.length s)) as [Hlt|Hge].
  - destruct (here (Py.drop k s)) eqn:Hk; [|reflexivity].
    exfalso. apply (Hnone k). now split.
  - now rewrite drop_all.
Qed.

(** X13.  With a search text and a stem of ASCII characters, a replacement
    text without a backslash is used as it is typed: the case-insensitive
    replace stage returns the stem with that text in the place of every
    occurrence of the search text, in any casing, the occurrences taken
    from left to right without overlap. *)
Theorem X_replace_plain_text (config : RenameConfig) (stem : string) :
  replace_str config <> "" -> replace_case config = false ->
  Py.mem "\" (replace_with config) = false ->
  ascii_text (replace_str config) -> ascii_text stem ->
  exists out,
    RenamingEngine.stage_replace config stem = Returns out /\
    replaced_all (opens_ignoring_case (replace_str config))
                 (String.length (replace_str config))
                 (replace_with config) stem out.
Proof.
  intros Hset Hcase Hplain _ _. unfold RenamingEngine.stage_replace, truthy.
  destruct (String.eqb_spec (replace_str config) ""); [contradiction|].
  simpl negb. cbv iota. rewrite Hcase, sub_plain by assumption.
  eexists. split; [reflexivity|].
  rewrite (scan_same_test _ (opens_ignoring_case (replace_str config)))
    by apply prefix_ignorecase_opens.
  apply (scan_replaces_all _ _ _) with (n := String.length stem); [|lia].
  destruct (replace_str config); [contradiction | simpl; lia].
Qed.

Lemma X_replace_plain_text_witness :
  let c := search_config "" false "img" "Photo" false in
  replace_str c <> "" /\ replace_case c = false /\
  Py.mem "\" (replace_with c) = false /\
  ascii_text (replace_str c) /\ ascii_text "IMG_img_Img" /\
  exists out,
    RenamingEngine.stage_replace c "IMG_img_Img" = Returns out /\
    out = "Photo_Photo_Photo".
Proof.
  intros c.
  assert (H : replace_str c <> "") by discriminate.
  split; [exact H|]. split; [reflexivity|]. split; [reflexivity|].
  split; [reflexivity|]. split; [reflexivity|].
  destruct (X_replace_plain_text c "IMG_img_Img" H eq_refl eq_refl eq_refl eq_refl)
    as (out & Hrun & _).
  exists out. split; [exact Hrun|].
  vm_compute in Hrun. now injection Hrun as <-.
Defined.

(** X14.  When the search text occurs at no position of the stem, the
    replace stage returns the stem unchanged: in the case-sensitive mode
    for every text, and in the case-insensitive mode for a search text and
    a stem of ASCII characters and a replacement text without a
    backslash. *)
Theorem X_replace_absent (config : RenameConfig) (stem : string) :
  replace_str config <> "" ->
  replace_case config = true \/
    (Py.mem "\" (replace_with config) = false /\
     ascii_text (replace_str config) /\ ascii_text stem) ->
  (forall k,
     ~ occurs_at (if replace_case config
                  then String.prefix (replace_str config)
                  else opens_ignoring_case (replace_str config)) stem k) ->
  RenamingEngine.stage_replace config stem = Returns stem.
Proof.
  intros Hset Hmode Hnone. unfold RenamingEngine.stage_replace, truthy.
  destruct (String.eqb_spec (replace_str config) ""); [contradiction|].
  simpl negb. cbv iota.
  destruct (replace_str config) as [|a old] eqn:Hold; [contradiction|].
  destruct (replace_case config).
  - f_equal. unfold Py.replace. apply scan_absent.
    now apply never_occurs.
  - destruct Hmode as [|(Hplain & _ & _)]; [discriminate|].
    rewrite sub_plain by assumption. f_equal.
    rewrite (scan_same_test _ (opens_ignoring_case (String a old)))
      by apply prefix_ignorecase_opens.
    apply scan_absent. now apply never_occurs.
Qed.

Lemma X_replace_absent_witness :
  let c := search_config "" false "zz" "Q" false in
  replace_str c <> "" /\
  Py.mem "\" (replace_with c) = false /\
  ascii_text (replace_str c) /\ ascii_text "aZb" /\
  RenamingEngine.stage_replace c "aZb" = Returns "aZb".
Proof.
  intros c.
  assert (H : replace_str c <> "") by discriminate.
  split; [exact H|]. split; [reflexivity|]. split; [reflexivity|].
  split; [reflexivity|].
  apply (X_replace_absent c "aZb" H).
  - right. repeat split; reflexivity.
  - intros k [Hk Hocc]. simpl in Hk.
    destruct k as [|[|[|k]]]; try discriminate Hocc. lia.
Defined.

(** X15.  [process] returns a name when three things hold: the regex stage
    is off, or its one call of [re.sub] returns or raises [re.error]; the
    replace stage is off, or case-sensitive, or has a replacement text
    without a backslash; and the numbering is off, or its number has at
    most 4300 digits and its width is at most 99. *)
Theorem X_process_returns
        (re_sub : string -> string -> string -> result string)
        (name : string) (config : RenameConfig) (index : Z) :
  regex_match config = "" \/
    (forall e, re_sub (regex_pattern config) (regex_replace config)
                 (Pathlib.stem name) = Raises e -> e = ReError) ->
  replace_str config = "" \/ replace_case config = true
    \/ Py.mem "\" (replace_with config) = false ->
  num_mode config = "None" \/
    (num_pad config <= 99 /\
     Z.abs (RenamingEngine.num_val config index) < 10 ^ 4300) ->
  exists out, RenamingEngine.process re_sub name config index = Returns out.
Proof.
  intros Hre Hrepl _. unfold RenamingEngine.process.
  assert (Hstage1 : exists s1,
             RenamingEngine.stage_regex re_sub config (Pathlib.stem name)
             = Returns s1).
  { unfold RenamingEngine.stage_regex, truthy.
    destruct (String.eqb_spec (regex_match config) "") as [Hoff|Hon];
      [eexists; reflexivity|].
    destruct Hre as [Hoff|Hre]; [contradiction|].
    simpl negb. cbv iota. fold (regex_pattern config).
    destruct (re_sub (regex_pattern config) (regex_replace config)
                (Pathlib.stem name)) as [s|e] eqn:Hr.
    - eexists; reflexivity.
    - rewrite (Hre e eq_refl). eexists; reflexivity. }
  destruct Hstage1 as (s1 & ->). simpl bind.
  assert (Hstage3 : exists s3,
             RenamingEngine.stage_replace config
               (RenamingEngine.stage_name config s1) = Returns s3).
  { unfold RenamingEngine.stage_replace.
    destruct (truthy (replace_str config)) eqn:Hset; [|eexists; reflexivity].
    destruct (replace_case config) eqn:Hcase; [eexists; reflexivity|].
    destruct Hrepl as [Hempty | [Hc | Hplain]].
    - rewrite Hempty in Hset. discriminate.
    - discriminate.
    - rewrite sub_plain by assumption. eexists; reflexivity. }
  destruct Hstage3 as (s3 & ->). simpl bind. eexists; reflexivity.
Qed.

Lemma X_process_returns_witness :
  regex_match suffix_numbering_config = "" /\
  replace_str suffix_numbering_config = "" /\
  num_pad suffix_numbering_config <= 99 /\
  Z.abs (RenamingEngine.num_val suffix_numbering_config 1) < 10 ^ 4300 /\
  exists out, RenamingEngine.process re_rejects "data.csv"
                suffix_numbering_config 1 = Returns out.
Proof.
  assert (Hpad : num_pad suffix_numbering_config <= 99)
    by (vm_compute; discriminate).
  assert (Hval : Z.abs (RenamingEngine.num_val suffix_numbering_config 1)
                 < 10 ^ 4300) by (vm_compute; reflexivity).
  split; [reflexivity|]. split; [reflexivity|]. split; [exact Hpad|].
  split; [exact Hval|].
  apply (X_process_returns re_rejects "data.csv" suffix_numbering_config 1).
  - left. reflexivity.
  - left. reflexivity.
  - right. split; [exact Hpad | exact Hval].
Defined.

(** ** The whole of [process] *)

(** X16.  Without numbering the index is not used: [process] gives the
    same result at every index. *)
Theorem X_index_unused
        (re_sub : string -> string -> string -> result string)
        (name : string) (config : RenameConfig) (i j : Z) :
  num_mode config = "None" ->
  RenamingEngine.process re_sub name config i
  = RenamingEngine.process re_sub name config j.
Proof.
  intros Hmode. unfold RenamingEngine.process, RenamingEngine.stage_numbering.
  rewrite Hmode. reflexivity.
Qed.

Lemma X_index_unused_witness :
  num_mode fixed_x_config = "None" /\
  RenamingEngine.process re_unused "a.txt" fixed_x_config 1
  = RenamingEngine.process re_unused "a.txt" fixed_x_config 2.
Proof.
  split; [reflexivity|].
  exact (X_index_unused re_unused "a.txt" fixed_x_config 1 2 eq_refl).
Defined.

(** X17.  With the regex stage off, the name mode Fixed or Remove and no
    numbering, the new name depends on the extension of the name only: any
    two names with the same extension get the same new name. *)
Theorem X_fixed_name_collides
        (re_sub : string -> string -> string -> result string)
        (name1 name2 : string) (config : RenameConfig) (i j : Z) :
  regex_match config = "" ->
  name_mode config = "Fixed" \/ name_mode config = "Remove" ->
  num_mode config = "None" ->
  Pathlib.suffix name1 = Pathlib.suffix name2 ->
  RenamingEngine.process re_sub name1 config i
  = RenamingEngine.process re_sub name2 config j.
Proof.
  intros Hre Hname Hnum Hext.
  unfold RenamingEngine.process, RenamingEngine.stage_regex,
    RenamingEngine.stage_name, RenamingEngine.stage_numbering.
  rewrite Hre, Hnum, Hext. simpl.
  destruct Hname as [-> | ->]; reflexivity.
Qed.

Lemma X_fixed_name_collides_witness :
  regex_match fixed_x_config = "" /\ name_mode fixed_x_config = "Fixed" /\
  num_mode fixed_x_config = "None" /\
  Pathlib.suffix "foo.txt" = Pathlib.suffix "bar.txt" /\
  RenamingEngine.process re_unused "foo.txt" fixed_x_config 1
  = RenamingEngine.process re_unused "bar.txt" fixed_x_config 2.
Proof.
  repeat (split; [reflexivity|]).
  exact (X_fixed_name_collides re_unused "foo.txt" "bar.txt" fixed_x_config 1 2
           eq_refl (or_introl eq_refl) eq_refl eq_refl).
Defined.

(** ** The split of the name, for every input *)

Section SplitFacts.

Lemma rfind_negative (c : ascii) (s : string) :
  Py.rfind c s < 0 -> Py.mem c s = false.
Proof.
  induction s as [|a s IH]; simpl; [reflexivity|].
  destruct (Z.leb_spec 0 (Py.rfind c s)); [lia|].
  destruct (Ascii.eqb a c); [lia|]. intros _. apply IH. lia.
Qed.

Lemma drop_at_rfind (c : ascii) (s : string) :
  0 <= Py.rfind c s ->
  exists e, Py.drop (Z.to_nat (Py.rfind c s)) s = String c e /\
            Py.mem c e = false.
Proof.
  induction s as [|a s IH]; simpl; [lia|].
  destruct (Z.leb_spec 0 (Py.rfind c s)) as [Hr|Hr].
  - intros _. destruct (IH Hr) as (e & He & Hmem).
    exists e. split; [|exact Hmem].
    replace (Z.to_nat (Py.rfind c s + 1)) with (S (Z.to_nat (Py.rfind c s)))
      by lia.
    exact He.
  - destruct (Ascii.eqb_spec a c) as [->|]; [|lia].
    intros _. exists s. split; [reflexivity|]. apply rfind_negative. lia.
Qed.

Lemma split_parts_no_separator (c : ascii) (s : string) :
  forall x, In x (Py.split c s) -> Py.mem c x = false.
Proof.
  induction s as [|a s IH]; simpl.
  - intros x [<-|[]]. reflexivity.
  - destruct (Ascii.eqb a c) eqn:Ha.
    + intros x [<-|Hin]; [reflexivity | now apply IH].
    + destruct (Py.split c s) as [|w ws].
      * intros x [<-|[]]. simpl. now rewrite Ha.
      * intros x [<-|Hin].
        -- simpl. rewrite Ha. apply IH. now left.
        -- apply IH. now right.
Qed.

Lemma last_in_or_default (l : list string) (d : string) :
  last l d = d \/ In (last l d) l.
Proof.
  induction l as [|a l IH]; [now left|].
  destruct l as [|b l]; [right; now left|].
  destruct IH as [IH|IH]; [left; exact IH | right; right; exact IH].
Qed.

End SplitFacts.

(** X18.  For every text given as a name: the stem and the extension make
    up the last path component; that component holds no separator; a
    non-empty component has a non-empty stem; and the extension is either
    empty or a dot followed by at least one character, none of them a
    dot. *)
Theorem X_split_invariants (name : string) :
  Pathlib.stem name ++ Pathlib.suffix name = Pathlib.name name /\
  Py.mem "/" (Pathlib.name name) = false /\
  (Pathlib.name name <> "" -> Pathlib.stem name <> "") /\
  (Pathlib.suffix name = "" \/
   exists e, Pathlib.suffix name = "." ++ e /\ e <> "" /\ Py.mem "." e = false).
Proof.
  split; [apply stem_suffix|]. split; [|split].
  - unfold Pathlib.name.
    destruct (last_in_or_default
                (filter Pathlib.is_component (Py.split "/" name)) "")
      as [-> | Hin]; [reflexivity|].
    apply filter_In in Hin as [Hin _].
    now apply (split_parts_no_separator "/" name).
  - intros Hne. unfold Pathlib.stem.
    destruct (Pathlib.has_suffix (Pathlib.name name)) eqn:Hhas; [|exact Hne].
    unfold Pathlib.has_suffix in Hhas. apply andb_true_iff in Hhas as [H0 H1].
    apply Z.ltb_lt in H0, H1.
    intros Hempty. apply (f_equal String.length) in Hempty.
    unfold Py.slice_to in Hempty. rewrite length_take in Hempty.
    rewrite slice_index_inside in Hempty by (unfold Py.len in *; lia).
    unfold Py.len in *. simpl in Hempty. lia.
  - unfold Pathlib.suffix.
    destruct (Pathlib.has_suffix (Pathlib.name name)) eqn:Hhas; [right | now left].
    unfold Pathlib.has_suffix in Hhas. apply andb_true_iff in Hhas as [H0 H1].
    apply Z.ltb_lt in H0, H1.
    destruct (drop_at_rfind "." (Pathlib.name name)) as (e & He & Hmem); [lia|].
    exists e. unfold Py.slice_from.
    rewrite slice_index_inside by (unfold Py.len in *; lia).
    rewrite He. split; [reflexivity|]. split; [|exact Hmem].
    intros ->. apply (f_equal String.length) in He.
    rewrite length_drop in He. unfold Py.len in *. simpl in He. lia.
Qed.

Lemma X_split_invariants_witness :
  Pathlib.name "/tmp/.hidden" <> "" /\ Pathlib.stem "/tmp/.hidden" <> "".
Proof.
  assert (H : Pathlib.name "/tmp/.hidden" <> "") by discriminate.
  split; [exact H|].
  exact (proj1 (proj2 (proj2 (X_split_invariants "/tmp/.hidden"))) H).
Defined.

(** ** The table *)

Lemma count_occ_one (l : list string) :
  forall (i : nat) (x : string),
    nth_error l i = Some x ->
    (forall j, j <> i -> nth_error l j <> Some x) ->
    count_occ string_dec l x = 1%nat.
Proof.
  induction l as [|a l IH]; intros i x Hi Huniq.
  - destruct i; discriminate.
  - destruct i as [|i]; simpl in Hi.
    + injection Hi as ->. rewrite count_occ_cons_eq by reflexivity. f_equal.
      apply count_occ_not_In. intros Hin.
      apply In_nth_error in Hin as (j & Hj).
      apply (Huniq (S j)); [discriminate | exact Hj].
    + assert (Ha : a <> x).
      { intros ->. apply (Huniq O); [discriminate | reflexivity]. }
      rewrite count_occ_cons_neq by exact Ha.
      apply (IH i x Hi). intros j Hj Hnth.
      apply (Huniq (S j)); [congruence | exact Hnth].
Qed.

(** X19.  The brush of the New Name column is green exactly for an item
    whose new name differs from its original name and is the new name of
    no other item of the table. *)
Theorem X_green_iff_unique (files : list FileItem) (i : nat) (item : FileItem) :
  nth_error files i = Some item ->
  (FileTableModel.data_foreground files i 1 = Returns (Some FileTableModel.green)
   <->
   new_name item <> original_name item /\
   forall j other, j <> i -> nth_error files j = Some other ->
                   new_name other <> new_name item).
Proof.
  intros Hi. split.
  - intros Hgreen. split.
    + intros Hsame. unfold FileTableModel.data_foreground in Hgreen.
      rewrite Hi, Hsame, String.eqb_refl in Hgreen. discriminate.
    + intros j other Hj Hnth Hname.
      rewrite (foreground_of_duplicate files i j item other) in Hgreen;
        [|congruence | assumption | assumption | congruence].
      destruct (String.eqb (new_name item) (original_name item)); discriminate.
  - intros [Hchanged Huniq]. unfold FileTableModel.data_foreground.
    rewrite Hi. simpl.
    destruct (String.eqb_spec (new_name item) (original_name item));
      [contradiction|]. simpl.
    rewrite (count_occ_one (map new_name files) i (new_name item)).
    + reflexivity.
    + now apply map_nth_error.
    + intros j Hj Hnth. rewrite nth_error_map in Hnth.
      destruct (nth_error files j) as [other|] eqn:Hother; [|discriminate].
      simpl in Hnth. injection Hnth as Hnth.
      exact (Huniq j other Hj Hother Hnth).
Qed.

Lemma X_green_iff_unique_witness :
  let plan := fst (FileTableModel.update_previews re_unused
                     suffix_numbering_config (batch ["a.txt"; "b.txt"])) in
  exists item,
    nth_error plan 0 = Some item /\
    FileTableModel.data_foreground plan 0 1 = Returns (Some FileTableModel.green) /\
    new_name item <> original_name item.
Proof.
  intros plan. eexists. split; [reflexivity|]. split; [reflexivity|].
  exact (proj1 (proj1 (X_green_iff_unique plan 0 _ eq_refl) eq_refl)).
Defined.

(** ** The preview pass, again *)

Lemma set_new_name_twice (item : FileItem) (n m : string) :
  set_new_name (set_new_name item n) m = set_new_name item m.
Proof. reflexivity. Qed.

Lemma update_from_twice
      (re_sub : string -> string -> string -> result string)
      (config : RenameConfig) (files : list FileItem) :
  forall i,
    FileTableModel.update_from re_sub i config
      (fst (FileTableModel.update_from re_sub i config files))
    = FileTableModel.update_from re_sub i config files.
Proof.
  induction files as [|item rest IH]; intros i; [reflexivity|].
  simpl.
  destruct (RenamingEngine.process re_sub (original_name item) config (i + 1))
    as [n|e] eqn:Hn.
  - destruct (FileTableModel.update_from re_sub (i + 1) config rest)
      as [rest' e'] eqn:Hrest.
    simpl. rewrite Hn.
    specialize (IH (i + 1)). rewrite Hrest in IH. simpl in IH. rewrite IH.
    reflexivity.
  - simpl. rewrite Hn. reflexivity.
Qed.

(** X20.  The preview is idempotent: the new names are computed from the
    original names only, so a second pass with the same configuration
    changes nothing, whether the pass ends or an exception stops it. *)
Theorem X_preview_idempotent
        (re_sub : string -> string -> string -> result string)
        (config : RenameConfig) (files : list FileItem) :
  FileTableModel.update_previews re_sub config
    (fst (FileTableModel.update_previews re_sub config files))
  = FileTableModel.update_previews re_sub config files.
Proof. apply update_from_twice. Qed.

(** ** The rename loop, again *)

Section MoreExecuteFacts.

Variable World : Type.
Variable os_rename : World -> string -> string -> World * option string.
Variable parent : string -> string.
Variable joinpath : string -> string -> string.

Lemma rename_loop_unchanged (files : list FileItem) :
  (forall item, In item files -> new_name item = original_name item) ->
  forall w n errors,
    MainWindow.rename_loop World os_rename parent joinpath files w n errors
    = (w, n, errors).
Proof.
  induction files as [|item rest IH]; intros Hall w n errors; [reflexivity|].
  simpl. rewrite (Hall item) by now left. rewrite String.eqb_refl.
  apply IH. intros it Hin. apply Hall. now right.
Qed.

Lemma rename_loop_app (l1 l2 : list FileItem) :
  forall w n errors,
    MainWindow.rename_loop World os_rename parent joinpath (l1 ++ l2) w n errors
    = let '(w1, n1, errors1) :=
        MainWindow.rename_loop World os_rename parent joinpath l1 w n errors in
      MainWindow.rename_loop World os_rename parent joinpath l2 w1 n1 errors1.
Proof.
  induction l1 as [|item rest IH]; intros w n errors; [reflexivity|].
  simpl.
  destruct (String.eqb (original_name item) (new_name item)); [apply IH|].
  destruct (os_rename w (path item) (joinpath (parent (path item)) (new_name item)))
    as [w' [msg|]]; apply IH.
Qed.

End MoreExecuteFacts.

(** X21.  When no item of the table has a new name that differs from its
    original name, the run calls no rename: the file system is what it
    was, and the result is 0 renamed files and no error. *)
Theorem X_nothing_to_rename
        (World : Type)
        (os_rename : World -> string -> string -> World * option string)
        (parent : string -> string) (joinpath : string -> string -> string)
        (files : list FileItem) (w : World) :
  (forall item, In item files -> new_name item = original_name item) ->
  files <> [] ->
  MainWindow.execute_rename World os_rename parent joinpath files true w
  = (w, Some (0, [], "Renamed 0 files.")).
Proof.
  intros Hall Hne. unfold MainWindow.execute_rename.
  destruct files as [|item rest]; [contradiction|].
  now rewrite (rename_loop_unchanged World os_rename parent joinpath).
Qed.

Lemma X_nothing_to_rename_witness :
  (forall item, In item (batch ["a.txt"; "b.txt"]) ->
                new_name item = original_name item) /\
  batch ["a.txt"; "b.txt"] <> [] /\
  MainWindow.execute_rename (list string) dir_rename dir_parent dir_join
    (batch ["a.txt"; "b.txt"]) true ["/d/a.txt"; "/d/b.txt"]
  = (["/d/a.txt"; "/d/b.txt"], Some (0, [], "Renamed 0 files.")).
Proof.
  assert (H1 : forall item, In item (batch ["a.txt"; "b.txt"]) ->
                            new_name item = original_name item).
  { intros item [<-|[<-|[]]]; reflexivity. }
  assert (H2 : batch ["a.txt"; "b.txt"] <> []) by discriminate.
  split; [exact H1|]. split; [exact H2|].
  exact (X_nothing_to_rename (list string) dir_rename dir_parent dir_join
           (batch ["a.txt"; "b.txt"]) ["/d/a.txt"; "/d/b.txt"] H1 H2).
Defined.

(** X22.  The loop over a table in two parts is the loop over the first
    part followed by the loop over the second, started from the file
    system, the counter and the errors the first one leaves. *)
Theorem X_rename_loop_in_parts
        (World : Type)
        (os_rename : World -> string -> string -> World * option string)
        (parent : string -> string) (joinpath : string -> string -> string)
        (first second : list FileItem) (w : World) (n : Z) (errors : list string) :
  MainWindow.rename_loop World os_rename parent joinpath (first ++ second)
    w n errors
  = let '(w1, n1, errors1) :=
      MainWindow.rename_loop World os_rename parent joinpath first w n errors in
    MainWindow.rename_loop World os_rename parent joinpath second w1 n1 errors1.
Proof. apply rename_loop_app. Qed.

(** X23.  The text of the result box shows the counter, the number of
    errors and the first five errors only: two lists of errors of the same
    length that agree on their first five entries give the same text. *)
Theorem X_message_shows_five (n : Z) (errors1 errors2 : list string) :
  List.length errors1 = List.length errors2 ->
  firstn 5 errors1 = firstn 5 errors2 ->
  MainWindow.result_message n errors1 = MainWindow.result_message n errors2.
Proof.
  intros Hlen Hfirst. unfold MainWindow.result_message.
  destruct errors1 as [|a l1], errors2 as [|b l2]; try discriminate;
    [reflexivity|].
  now rewrite Hlen, Hfirst.
Qed.

Lemma X_message_shows_five_witness :
  List.length ["1"; "2"; "3"; "4"; "5"; "6"]
    = List.length ["1"; "2"; "3"; "4"; "5"; "other"] /\
  MainWindow.result_message 2 ["1"; "2"; "3"; "4"; "5"; "6"]
  = MainWindow.result_message 2 ["1"; "2"; "3"; "4"; "5"; "other"].
Proof.
  split; [reflexivity|].
  exact (X_message_shows_five 2 ["1"; "2"; "3"; "4"; "5"; "6"]
           ["1"; "2"; "3"; "4"; "5"; "other"] eq_refl eq_refl).
Defined.

(** ** Reset *)

Lemma identity_process
      (re_sub : string -> string -> string -> result string)
      (name : string) (config : RenameConfig) (index : Z) :
  identity_config config -> Py.mem "/" name = false -> name <> "." ->
  RenamingEngine.process re_sub name config index = Returns name.
Proof.
  intros (Hre & Hname & Hrepl & Hcase & Hfirst & Hlast & Hfrom & Hto & Hchars
          & Hpre & Hsuf & Hins & Hnum & Hext) Hsep Hdot.
  unfold RenamingEngine.process, RenamingEngine.stage_regex,
    RenamingEngine.stage_name, RenamingEngine.stage_replace,
    RenamingEngine.stage_remove, RenamingEngine.remove_characters,
    RenamingEngine.remove_range, RenamingEngine.remove_last_n,
    RenamingEngine.remove_first_n, RenamingEngine.stage_add,
    RenamingEngine.stage_numbering, RenamingEngine.stage_case,
    RenamingEngine.stage_extension.
  rewrite Hre, Hname, Hrepl, Hcase, Hfirst, Hlast, Hfrom, Hto, Hchars,
    Hpre, Hsuf, Hins, Hnum, Hext.
  simpl. rewrite stem_suffix, name_of_component by assumption. reflexivity.
Qed.

Lemma reset_is_identity (ui : Ui.Widgets) :
  identity_config (Ui.update_config_from_ui (Ui.reset_ui ui)).
Proof. unfold identity_config. simpl. repeat split; reflexivity. Qed.

Lemma update_from_identity
      (re_sub : string -> string -> string -> result string)
      (config : RenameConfig) (files : list FileItem) :
  identity_config config ->
  (forall item, In item files ->
     Py.mem "/" (original_name item) = false /\ original_name item <> ".") ->
  forall i,
    FileTableModel.update_from re_sub i config files
    = (map (fun item => set_new_name item (original_name item)) files, None).
Proof.
  intros Hid. induction files as [|item rest IH]; intros Hall i; [reflexivity|].
  simpl. destruct (Hall item (or_introl eq_refl)) as [Hsep Hdot].
  rewrite (identity_process re_sub _ config (i + 1) Hid Hsep Hdot).
  rewrite IH; [reflexivity|]. intros it Hin. apply Hall. now right.
Qed.

(** X24.  After Reset the preview gives every file its original name as
    new name, whatever the widgets held before, for a table of file names
    (no separator, not [.]).  Reset does so although it leaves the two
    check boxes, the insert position and the parameters of the numbering
    as they are. *)
Theorem X_reset_restores_names
        (re_sub : string -> string -> string -> result string)
        (ui : Ui.Widgets) (files : list FileItem) :
  (forall item, In item files ->
     Py.mem "/" (original_name item) = false /\ original_name item <> ".") ->
  Ui.refresh_preview re_sub (Ui.reset_ui ui) files
    = (map (fun item => set_new_name item (original_name item)) files, None) /\
  let c := Ui.update_config_from_ui (Ui.reset_ui ui) in
  let c0 := Ui.update_config_from_ui ui in
  regex_simple c = regex_simple c0 /\ replace_case c = replace_case c0 /\
  add_at_pos c = add_at_pos c0 /\ num_start c = num_start c0 /\
  num_incr c = num_incr c0 /\ num_pad c = num_pad c0 /\
  num_sep c = num_sep c0 /\ num_at c = num_at c0.
Proof.
  intros Hall. split.
  - unfold Ui.refresh_preview, FileTableModel.update_previews.
    apply update_from_identity; [apply reset_is_identity | exact Hall].
  - simpl. repeat split; reflexivity.
Qed.

Lemma X_reset_restores_names_witness :
  (forall item, In item (batch ["a.txt"; "b.txt"]) ->
     Py.mem "/" (original_name item) = false /\ original_name item <> ".") /\
  map new_name (fst (Ui.refresh_preview re_rejects busy_widgets
                       (batch ["a.txt"; "b.txt"]))) = ["Ps015-I.bak"; "Ps020-I.bak"] /\
  map new_name (fst (Ui.refresh_preview re_rejects (Ui.reset_ui busy_widgets)
                       (batch ["a.txt"; "b.txt"]))) = ["a.txt"; "b.txt"].
Proof.
  assert (H : forall item, In item (batch ["a.txt"; "b.txt"]) ->
     Py.mem "/" (original_name item) = false /\ original_name item <> ".").
  { intros item [<-|[<-|[]]]; (split; [reflexivity | discriminate]). }
  split; [exact H|]. split; [vm_compute; reflexivity|].
  rewrite (proj1 (X_reset_restores_names re_rejects busy_widgets
                    (batch ["a.txt"; "b.txt"]) H)).
  reflexivity.
Defined.

(** ** Loading a directory *)

Section LoadFacts.

Variable child : string -> string -> string.
Variable dir : string.

Let as_loaded := as_loaded child dir.

Lemma load_loop_prefix (entries : list Directory.DirEntry) :
  forall acc files raised,
    Directory.load_loop child dir entries acc = (files, raised) ->
    exists k added,
      files = (acc ++ added)%list /\
      map original_name added
        = map Directory.entry_name (filter is_regular (firstn k entries)) /\
      Forall as_loaded added.
Proof.
  induction entries as [|e rest IH]; intros acc files raised Hrun; simpl in Hrun.
  - injection Hrun as <- _. exists O, []. rewrite app_nil_r. repeat split.
    constructor.
  - assert (Hstop : files = acc -> exists k added,
               files = (acc ++ added)%list /\
               map original_name added
                 = map Directory.entry_name
                     (filter is_regular (firstn k (e :: rest))) /\
               Forall as_loaded added).
    { intros ->. exists O, []. rewrite app_nil_r. repeat split. constructor. }
    destruct (Directory.entry_is_file e) as [[|]| |] eqn:Hfile.
    + destruct (Directory.entry_stat e) as [st| |] eqn:Hstat.
      * destruct (IH _ _ _ Hrun) as (k & added & -> & Hnames & Hall).
        exists (S k), (Directory.new_item child dir e st :: added).
        rewrite <- app_assoc. split; [reflexivity|]. split.
        -- simpl. unfold is_regular at 1. rewrite Hfile. simpl. now rewrite Hnames.
        -- constructor; [repeat split | exact Hall].
      * injection Hrun as <- _. now apply Hstop.
      * injection Hrun as <- _. now apply Hstop.
    + destruct (IH _ _ _ Hrun) as (k & added & -> & Hnames & Hall).
      exists (S k), added. split; [reflexivity|]. split; [|exact Hall].
      simpl. unfold is_regular at 1. now rewrite Hfile.
    + injection Hrun as <- _. now apply Hstop.
    + injection Hrun as <- _. now apply Hstop.
Qed.

Lemma load_loop_complete (entries : list Directory.DirEntry) :
  (forall e, In e entries ->
     (exists b, Directory.entry_is_file e = Directory.Got b) /\
     (exists st, Directory.entry_stat e = Directory.Got st)) ->
  forall acc,
    exists added,
      Directory.load_loop child dir entries acc = ((acc ++ added)%list, false) /\
      map original_name added
        = map Directory.entry_name (filter is_regular entries).
Proof.
  induction entries as [|e rest IH]; intros Hall acc; simpl.
  - exists []. now rewrite app_nil_r.
  - destruct (Hall e (or_introl eq_refl)) as [(b & Hfile) (st & Hstat)].
    assert (Hrest : forall e', In e' rest ->
               (exists b, Directory.entry_is_file e' = Directory.Got b) /\
               (exists st, Directory.entry_stat e' = Directory.Got st))
      by (intros e' Hin; apply Hall; now right).
    unfold is_regular at 1. rewrite Hfile. destruct b.
    + rewrite Hstat.
      destruct (IH Hrest (acc ++ [Directory.new_item child dir e st])%list)
        as (added & -> & Hnames).
      exists (Directory.new_item child dir e st :: added).
      rewrite <- app_assoc. split; [reflexivity|]. simpl. now rewrite Hnames.
    + destruct (IH Hrest acc) as (added & -> & Hnames).
      exists added. split; [reflexivity | exact Hnames].
Qed.

End LoadFacts.

Section LoadExactly.

Variable child : string -> string -> string.
Variable dir : string.

Lemma load_loop_exact (entries : list Directory.DirEntry) :
  forall acc,
    Directory.load_loop child dir entries acc
    = ((acc ++ items_of child dir (firstn (first_failure entries) entries))%list,
       match nth_error entries (first_failure entries) with
       | Some e => failure_propagates e
       | None => false
       end).
Proof.
  induction entries as [|e rest IH]; intros acc.
  - simpl. now rewrite app_nil_r.
  - cbn [Directory.load_loop first_failure].
    unfold entry_fails, failure_propagates at 1.
    destruct (Directory.entry_is_file e) as [[|]| |] eqn:Hfile.
    + destruct (Directory.entry_stat e) as [st| |] eqn:Hstat.
      * rewrite IH. cbn [firstn nth_error]. unfold items_of at 2.
        cbn [flat_map]. rewrite Hfile, Hstat. fold (items_of child dir).
        now rewrite <- app_assoc.
      * cbn [firstn nth_error]. unfold items_of, failure_propagates.
        rewrite Hfile, Hstat. simpl. now rewrite app_nil_r.
      * cbn [firstn nth_error]. unfold items_of, failure_propagates.
        rewrite Hfile, Hstat. simpl. now rewrite app_nil_r.
    + rewrite IH. cbn [firstn nth_error]. unfold items_of at 2.
      cbn [flat_map]. rewrite Hfile. reflexivity.
    + cbn [firstn nth_error]. unfold items_of, failure_propagates.
      rewrite Hfile. simpl. now rewrite app_nil_r.
    + cbn [firstn nth_error]. unfold items_of, failure_propagates.
      rewrite Hfile. simpl. now rewrite app_nil_r.
Qed.

Lemma items_of_cons (e : Directory.DirEntry) (l : list Directory.DirEntry) :
  items_of child dir (e :: l)
  = (match Directory.entry_is_file e, Directory.entry_stat e with
     | Directory.Got true, Directory.Got st => [Directory.new_item child dir e st]
     | _, _ => []
     end ++ items_of child dir l)%list.
Proof. reflexivity. Qed.

Lemma names_before_failure (entries : list Directory.DirEntry) :
  map original_name
      (items_of child dir (firstn (first_failure entries) entries))
  = map Directory.entry_name
        (filter is_regular (firstn (first_failure entries) entries)).
Proof.
  induction entries as [|e rest IH]; [reflexivity|].
  cbn [first_failure]. destruct (entry_fails e) eqn:Hfails; [reflexivity|].
  cbn [firstn filter]. rewrite items_of_cons. unfold is_regular at 1.
  unfold entry_fails in Hfails.
  destruct (Directory.entry_is_file e) as [[|]| |]; try discriminate.
  - destruct (Directory.entry_stat e) as [st| |]; try discriminate.
    cbn [app map]. now rewrite IH.
  - exact IH.
Qed.

End LoadExactly.

(** X25.  Every item of a loaded table is as loaded: its new name is its
    original name, its status is [OK], its path is the entry of that name
    in the directory.  The table is empty when the path is no directory or
    the listing raises [PermissionError].  Otherwise the table holds, in
    order, the items of the regular files among the entries before the
    first entry on which a call fails, all the entries when none does;
    a [PermissionError] there ends the loading silently, any other
    exception leaves the function. *)
Theorem X_load_directory
        (child : string -> string -> string) (dir : string)
        (exists_and_is_dir : bool)
        (listing : Directory.probe (list Directory.DirEntry))
        (files : list FileItem) (raised : bool) :
  Directory.load_directory child dir exists_and_is_dir listing = (files, raised) ->
  Forall (fun item => new_name item = original_name item /\
                      status item = "OK" /\
                      path item = child dir (original_name item)) files /\
  (exists_and_is_dir = false \/ listing = Directory.Denied ->
     files = [] /\ raised = false) /\
  (forall entries, exists_and_is_dir = true -> listing = Directory.Got entries ->
     let k := first_failure entries in
     files = items_of child dir (firstn k entries) /\
     map original_name files
       = map Directory.entry_name (filter is_regular (firstn k entries)) /\
     raised = match nth_error entries k with
              | Some e => failure_propagates e
              | None => false
              end).
Proof.
  intros Hrun. unfold Directory.load_directory in Hrun.
  destruct exists_and_is_dir.
  - destruct listing as [entries| |].
    + split.
      * destruct (load_loop_prefix child dir entries [] files raised Hrun)
          as (k & added & -> & _ & Hall). exact Hall.
      * split; [intros [|]; discriminate|].
        intros entries' _ [= <-]. cbv zeta.
        rewrite load_loop_exact in Hrun. simpl app in Hrun.
        injection Hrun as <- <-.
        split; [reflexivity|]. split; [apply names_before_failure | reflexivity].
    + injection Hrun as <- <-. split; [constructor|]. split; [now split|].
      intros entries' _ [=].
    + injection Hrun as <- <-. split; [constructor|]. split.
      * intros [|]; discriminate.
      * intros entries' _ [=].
  - injection Hrun as <- <-. split; [constructor|]. split; [now split|].
    intros entries' [=].
Qed.

Lemma X_load_directory_witness :
  Directory.load_directory dir_join "/d" true (Directory.Got sample_listing)
    = ([loaded "/d" "a.txt" 10 100], false) /\
  first_failure sample_listing = 2%nat /\
  [loaded "/d" "a.txt" 10 100]
    = items_of dir_join "/d" (firstn 2 sample_listing).
Proof.
  split; [reflexivity|]. split; [reflexivity|].
  exact (proj1 (proj2 (proj2 (X_load_directory dir_join "/d" true
                                (Directory.Got sample_listing)
                                [loaded "/d" "a.txt" 10 100] false eq_refl))
                  sample_listing eq_refl eq_refl)).
Defined.

(** X26.  When every call on the file system gives a value, the loaded
    table holds exactly the regular files of the listing, in the order of
    the listing, and no exception is raised. *)
Theorem X_load_directory_complete
        (child : string -> string -> string) (dir : string)
        (entries : list Directory.DirEntry) :
  (forall e, In e entries ->
     (exists b, Directory.entry_is_file e = Directory.Got b) /\
     (exists st, Directory.entry_stat e = Directory.Got st)) ->
  exists files,
    Directory.load_directory child dir true (Directory.Got entries)
      = (files, false) /\
    map original_name files
      = map Directory.entry_name (filter is_regular entries).
Proof.
  intros Hall. unfold Directory.load_directory.
  destruct (load_loop_complete child dir entries Hall []) as (added & Hrun & Hnames).
  exists added. split; [exact Hrun | exact Hnames].
Qed.

Lemma X_load_directory_complete_witness :
  exists files,
    Directory.load_directory dir_join "/d" true
      (Directory.Got (firstn 2 sample_listing)) = (files, false) /\
    map original_name files = ["a.txt"].
Proof.
  apply (X_load_directory_complete dir_join "/d" (firstn 2 sample_listing)).
  intros e [<-|[<-|[]]]; split; eexists; reflexivity.
Defined.

(** ** What the preview keeps, and where an exception leaves it *)

Section MorePreviewFacts.

Variable re_sub : string -> string -> string -> result string.
Variable config : RenameConfig.

Lemma update_from_fields (files : list FileItem) :
  forall i,
    let files' := fst (FileTableModel.update_from re_sub i config files) in
    map original_name files' = map original_name files /\
    map path files' = map path files /\
    map status files' = map status files /\
    map size files' = map size files.
Proof.
  induction files as [|item rest IH]; intros i; [repeat split|].
  simpl.
  destruct (RenamingEngine.process re_sub (original_name item) config (i + 1))
    as [n|e]; [|repeat split].
  specialize (IH (i + 1)).
  destruct (FileTableModel.update_from re_sub (i + 1) config rest) as [rest' e'].
  simpl in *. destruct IH as (H1 & H2 & H3 & H4).
  now rewrite H1, H2, H3, H4.
Qed.

Lemma update_from_stops (before : list FileItem) :
  forall (i : Z) (before' : list FileItem) (item : FileItem)
         (after : list FileItem) (e : exn),
    FileTableModel.update_from re_sub i config before = (before', None) ->
    RenamingEngine.process re_sub (original_name item) config
      (i + Z.of_nat (List.length before) + 1) = Raises e ->
    FileTableModel.update_from re_sub i config (before ++ item :: after)
    = ((before' ++ item :: after)%list, Some e).
Proof.
  induction before as [|b rest IH]; intros i before' item after e Hrun Hraise.
  - injection Hrun as <-. simpl in *.
    replace (i + 0 + 1) with (i + 1) in Hraise by lia. now rewrite Hraise.
  - simpl in Hrun. simpl.
    destruct (RenamingEngine.process re_sub (original_name b) config (i + 1))
      as [n|e0]; [|discriminate].
    destruct (FileTableModel.update_from re_sub (i + 1) config rest)
      as [rest' e'] eqn:Hrest.
    injection Hrun as <- ->.
    rewrite (IH (i + 1) rest' item after e Hrest); [reflexivity|].
    rewrite <- Hraise. f_equal. simpl List.length. lia.
Qed.

End MorePreviewFacts.

(** X27.  The preview changes new names only: the items stay as many, in
    the same order, with the same original names, paths, statuses and
    sizes, whether the pass ends or an exception stops it. *)
Theorem X_preview_keeps_fields
        (re_sub : string -> string -> string -> result string)
        (config : RenameConfig) (files : list FileItem) :
  let files' := fst (FileTableModel.update_previews re_sub config files) in
  List.length files' = List.length files /\
  map original_name files' = map original_name files /\
  map path files' = map path files /\
  map status files' = map status files /\
  map size files' = map size files.
Proof.
  pose proof (update_from_fields re_sub config files 0) as H.
  cbv zeta in *. destruct H as (H1 & H2 & H3 & H4).
  split; [|repeat split; assumption].
  apply (f_equal (@List.length string)) in H1. now rewrite !length_map in H1.
Qed.

(** X28.  When [process] raises on an item after returning on all the
    items before it, the pass stops there: the items before have their new
    names, the item and all the items after it keep the new names they
    had, and the exception leaves the pass. *)
Theorem X_preview_stops_at_exception
        (re_sub : string -> string -> string -> result string)
        (config : RenameConfig)
        (before before' : list FileItem) (item : FileItem)
        (after : list FileItem) (e : exn) :
  FileTableModel.update_previews re_sub config before = (before', None) ->
  RenamingEngine.process re_sub (original_name item) config
    (Z.of_nat (List.length before) + 1) = Raises e ->
  FileTableModel.update_previews re_sub config (before ++ item :: after)
  = ((before' ++ item :: after)%list, Some e).
Proof.
  intros Hrun Hraise.
  apply (update_from_stops re_sub config before 0 before' item after e Hrun).
  exact Hraise.
Qed.

Lemma X_preview_stops_at_exception_witness :
  FileTableModel.update_previews re_fails_on_a
    (search_config "x" false "" "" false) (batch ["b.txt"; "a.txt"; "c.txt"])
  = ((batch ["b.txt"] ++ batch ["a.txt"; "c.txt"])%list, Some OtherError).
Proof.
  apply (X_preview_stops_at_exception re_fails_on_a
           (search_config "x" false "" "" false)
           (batch ["b.txt"]) (batch ["b.txt"]) (loaded "/d" "a.txt" 0 0)
           (batch ["c.txt"]) OtherError);
    reflexivity.
Defined.

(** * The rename loop and the directory of the target *)

Section PathFacts.











End PathFacts.



